(** * Flux: classification, routing and fallback engine of the file converter

    A shallow embedding of [main.py]: the format catalog, the type
    classifier, the upload and conversion endpoints and the five backend
    adapters, followed by the properties of the specification.

    Strings are Rocq [string]s (8-bit characters); [str.lower] acts on the
    letters A-Z.  Dictionaries are [gmap]s, paths are the [parts] tuples of
    [pathlib.PurePosixPath], the file system is a [gmap] from paths to file
    contents.  External programs and the optional libraries (Pillow, pandas,
    pypdfium2, filetype, mimetypes) are the fields of a record [Env]: the
    code is modelled for every behaviour they may have. *)

From Stdlib Require Import ZArith Ascii String List.
From stdpp Require Import base option list strings gmap fin_maps.

Local Open Scope string_scope.
Local Open Scope Z_scope.

(** ** Python strings *)

Module Str.

(** [c.lower()] on one character. *)
Definition lower_char (c : ascii) : ascii :=
  let n := N_of_ascii c in
  if ((65 <=? n) && (n <=? 90))%N then ascii_of_N (n + 32) else c.

(** [s.lower()] *)
Fixpoint lower (s : string) : string :=
  match s with
  | EmptyString => EmptyString
  | String c s' => String (lower_char c) (lower s')
  end.

(** [s.upper()] *)
Definition upper_char (c : ascii) : ascii :=
  let n := N_of_ascii c in
  if ((97 <=? n) && (n <=? 122))%N then ascii_of_N (n - 32) else c.

Fixpoint upper (s : string) : string :=
  match s with
  | EmptyString => EmptyString
  | String c s' => String (upper_char c) (upper s')
  end.

(** [s.lstrip(".")] *)
Fixpoint lstrip_dot (s : string) : string :=
  match s with
  | String "." s' => lstrip_dot s'
  | _ => s
  end.

(** [s.startswith(p)] *)
Fixpoint startswith (s p : string) : bool :=
  match p, s with
  | EmptyString, _ => true
  | String a p', String b s' => if decide (a = b) then startswith s' p' else false
  | String _ _, EmptyString => false
  end.

(** [s.rfind(c)], with [None] for Python's -1. *)
Fixpoint rfind (c : ascii) (s : string) : option nat :=
  match s with
  | EmptyString => None
  | String a s' =>
      match rfind c s' with
      | Some i => Some (S i)
      | None => if decide (a = c) then Some 0%nat else None
      end
  end.

(** [s[:n]] and [s[n:]] for [0 <= n]. *)
Fixpoint take (n : nat) (s : string) : string :=
  match n, s with
  | S n', String a s' => String a (take n' s')
  | _, _ => EmptyString
  end.

Fixpoint drop (n : nat) (s : string) : string :=
  match n, s with
  | S n', String _ s' => drop n' s'
  | _, _ => s
  end.

(** [s[-n:]]: the last [n] characters (all of [s] when it is shorter). *)
Definition last_chars (n : nat) (s : string) : string :=
  drop (String.length s - n) s.

(** [s.split(sep)] for a one-character separator. *)
Fixpoint split (sep : ascii) (s : string) : list string :=
  match s with
  | EmptyString => [EmptyString]
  | String a s' =>
      if decide (a = sep) then EmptyString :: split sep s'
      else match split sep s' with
           | w :: ws => String a w :: ws
           | [] => [String a EmptyString]
           end
  end.

(** [sep.join(ws)] *)
Fixpoint join (sep : string) (ws : list string) : string :=
  match ws with
  | [] => EmptyString
  | [w] => w
  | w :: ws' => w ++ sep ++ join sep ws'
  end.

(** [p in s] for strings: [p] occurs in [s]. *)
Fixpoint contains (s p : string) : bool :=
  startswith s p ||
  match s with
  | EmptyString => false
  | String _ s' => contains s' p
  end.

End Str.

(** ** The format catalog *)

(** [FORMAT_MAP] *)
Definition FORMAT_MAP : gmap string (list string) :=
  list_to_map
    [ ("image", ["png"; "jpg"; "jpeg"; "webp"; "pdf"; "tiff"; "tif"; "bmp"; "gif"; "ico"]);
      ("audio", ["mp3"; "wav"; "ogg"; "flac"; "aac"; "m4a"]);
      ("video", ["mp4"; "webm"; "gif"; "avi"; "mov"; "mkv"]);
      ("spreadsheet", ["csv"; "xlsx"; "xls"; "pdf"]);
      ("document", ["pdf"; "txt"; "odt"; "docx"; "html"; "rtf"]);
      ("presentation", ["pdf"; "pptx"; "odp"]);
      ("pdf", ["png"; "jpg"; "jpeg"; "webp"; "txt"]) ].

(** [MIME_TO_CATEGORY] *)
Definition MIME_TO_CATEGORY : gmap string string :=
  list_to_map
    [ ("image", "image");
      ("audio", "audio");
      ("video", "video");
      ("application/pdf", "pdf");
      ("application/vnd.openxmlformats-officedocument.spreadsheetml.sheet", "spreadsheet");
      ("application/vnd.ms-excel", "spreadsheet");
      ("text/csv", "spreadsheet");
      ("application/vnd.openxmlformats-officedocument.wordprocessingml.document", "document");
      ("application/msword", "document");
      ("text/plain", "document");
      ("application/vnd.openxmlformats-officedocument.presentationml.presentation", "presentation");
      ("application/vnd.ms-powerpoint", "presentation") ].

(** [EXT_TO_CATEGORY] *)
Definition EXT_TO_CATEGORY : gmap string string :=
  list_to_map
    [ ("jpg", "image"); ("jpeg", "image"); ("png", "image"); ("gif", "image");
      ("webp", "image"); ("tiff", "image"); ("tif", "image"); ("bmp", "image");
      ("mp3", "audio"); ("wav", "audio"); ("ogg", "audio"); ("flac", "audio");
      ("aac", "audio"); ("m4a", "audio"); ("wma", "audio");
      ("mp4", "video"); ("webm", "video"); ("avi", "video"); ("mov", "video");
      ("mkv", "video"); ("wmv", "video"); ("flv", "video");
      ("csv", "spreadsheet"); ("xlsx", "spreadsheet"); ("xls", "spreadsheet");
      ("docx", "document"); ("doc", "document"); ("txt", "document"); ("odt", "document");
      ("pptx", "presentation"); ("ppt", "presentation"); ("odp", "presentation");
      ("pdf", "pdf") ].

(** [EXT_ALIASES] *)
Definition EXT_ALIASES : gmap string string :=
  list_to_map [ ("jpeg", "jpg"); ("tif", "tiff") ].

(** [d.get(k, dflt)] *)
Definition dict_get {V} (d : gmap string V) (k : string) (dflt : V) : V :=
  default dflt (d !! k).

(** [k in d] *)
Definition dict_mem {V} (d : gmap string V) (k : string) : bool :=
  bool_decide (is_Some (d !! k)).

(** [normalize_ext] *)
Definition normalize_ext (ext : string) : string :=
  let clean := Str.lstrip_dot (Str.lower ext) in
  dict_get EXT_ALIASES clean clean.

(** ** Paths: [pathlib.PurePosixPath]

    A path is its [parts] tuple; an absolute path starts with the root
    component.  Two paths are equal when their parts are. *)

Abbreviation path := (list string).

Module Path.

(** The root of a path string: two leading slashes (and no more) are kept,
    any other number of them is one. *)
Definition root_of (s : string) : option string :=
  if Str.startswith s "///" then Some "/"
  else if Str.startswith s "//" then Some "//"
  else if Str.startswith s "/" then Some "/"
  else None.

(** [Path(s)]: empty and [.] components are dropped. *)
Definition parse (s : string) : path :=
  let comps := filter (λ c, c ≠ "" ∧ c ≠ ".") (Str.split "/" s) in
  match root_of s with
  | Some r => r :: comps
  | None => comps
  end.

(** [p / s] *)
Definition joinpath (p : path) (s : string) : path :=
  match root_of s with
  | Some _ => parse s
  | None => p ++ parse s
  end.

Definition is_root (c : string) : bool := Str.startswith c "/".

(** [p.name] *)
Definition name (p : path) : string :=
  match last p with
  | Some c => if is_root c then "" else c
  | None => ""
  end.

(** [p.suffix] (pathlib up to Python 3.13): the last dot of the name starts
    the suffix unless it is the first or the last character of the name. *)
Definition suffix (p : path) : string :=
  let n := name p in
  match Str.rfind "." n with
  | Some i =>
      if bool_decide (0 < i)%nat && bool_decide (i < String.length n - 1)%nat
      then Str.drop i n else ""
  | None => ""
  end.

(** [p.stem] *)
Definition stem (p : path) : string :=
  let n := name p in
  match Str.rfind "." n with
  | Some i =>
      if bool_decide (0 < i)%nat && bool_decide (i < String.length n - 1)%nat
      then Str.take i n else n
  | None => n
  end.

(** [p.parent] *)
Definition parent (p : path) : path :=
  match last p with
  | Some c => if is_root c then p else removelast p
  | None => []
  end.

(** [str(p)] *)
Definition str (p : path) : string :=
  match p with
  | [] => "."
  | c :: cs => if is_root c then c ++ Str.join "/" cs else Str.join "/" p
  end.

End Path.

Notation "p // s" := (Path.joinpath p s) (at level 40, left associativity).

(** [UPLOAD_DIR] and [OUTPUT_DIR] *)
Definition UPLOAD_DIR : path := Path.parse "uploads".
Definition OUTPUT_DIR : path := Path.parse "outputs".

(** ** Exceptions, the world and the monad of the endpoints *)

Inductive exn :=
| HTTPException (status_code : Z) (detail : string)
| RuntimeError (msg : string)
| KeyError (key : string)
| FileNotFoundError (msg : string)
| TimeoutExpired (msg : string)
| UnicodeDecodeError (msg : string)
| LibraryError (msg : string).  (* any other exception raised inside a library *)

(** [str(e)] *)
Definition exn_str (e : exn) : string :=
  match e with
  | HTTPException c d => d
  | RuntimeError m | FileNotFoundError m | TimeoutExpired m | LibraryError m => m
  | UnicodeDecodeError m => m
  | KeyError k => "'" ++ k ++ "'"
  end.

Definition is_HTTPException (e : exn) : bool :=
  match e with HTTPException _ _ => true | _ => false end.

(** What a call does that the claims speak about.  [Enter f] records that
    the adapter function [f] was called; the other events are the calls into
    external programs and libraries and the renames of files. *)
Inductive event :=
| Enter (fn : string)
| Subprocess (argv : list string)
| ImageOpen (p : path)
| ImageSave (p : path) (fmt : string)
| ReadCsv (p : path)
| ReadExcel (p : path)
| ToCsv (p : path)
| ToExcel (p : path)
| PdfOpen (p : string)
| PdfRender (index : nat)
| PdfClose
| Rename (src dst : path).

(** The file system holds the regular files of the upload and output
    directories (the directories themselves are created at start-up and are
    no entries of it).  Every path can be tested and written: the names are
    taken to be within the limits of the operating system, so that
    [exists()] answers and [open()] for writing succeeds; an [OSError] of
    these two calls is not part of the model. *)
Record World := mkWorld {
  fs : gmap path string;
  log : list event;
}.

Definition M (A : Type) : Type := World → (exn + A) * World.

Global Instance M_ret : MRet M := λ A x w, (inr x, w).
Global Instance M_bind : MBind M := λ A B f m w,
  match m w with
  | (inl e, w') => (inl e, w')
  | (inr x, w') => f x w'
  end.

(** [raise e] *)
Definition raise {A} (e : exn) : M A := λ w, (inl e, w).

(** A pure computation that may raise. *)
Definition lift {A} (r : exn + A) : M A := λ w, (r, w).

Definition emit (ev : event) : M unit :=
  λ w, (inr (), mkWorld (fs w) (log w ++ [ev])).

Definition get_fs : M (gmap path string) := λ w, (inr (fs w), w).
Definition put_fs (f : gmap path string) : M unit := λ w, (inr (), mkWorld f (log w)).

(** [try: m  except <the exceptions h handles>: h e] *)
Definition try_except {A} (m : M A) (h : exn → option (M A)) : M A := λ w,
  match m w with
  | (inl e, w') => match h e with Some k => k w' | None => (inl e, w') end
  | (inr x, w') => (inr x, w')
  end.

(** [try: m  finally: f] *)
Definition try_finally {A} (m : M A) (f : M unit) : M A := λ w,
  match m w with
  | (r, w') => match f w' with
               | (inl e, w'') => (inl e, w'')
               | (inr _, w'') => (r, w'')
               end
  end.

(** [p.exists()] *)
Definition path_exists (p : path) : M bool :=
  f ← get_fs; mret (bool_decide (is_Some (f !! p))).

(** [src.rename(dst)] and [src.replace(dst)]: [dst] is overwritten. *)
Definition path_rename (src dst : path) : M unit :=
  f ← get_fs;
  match f !! src with
  | Some c => emit (Rename src dst);; put_fs (<[dst := c]> (delete src f))
  | None => raise (FileNotFoundError (Path.str src))
  end.

(** ** The environment: capabilities, external programs and libraries *)

(** What [subprocess.run(..., capture_output=True, text=True, timeout=t)]
    does: the program is not found; it runs out of time; it exits but what it
    printed is no text in the encoding of the locale, so that the call raises
    although the program has finished; the call raises anything else; or the
    call returns the exit code and the decoded standard error.  In every case
    but the first the files are as the program left them. *)
Inductive proc_outcome :=
| NotInstalled                                   (* [FileNotFoundError] *)
| TimedOut (fs' : gmap path string)               (* [TimeoutExpired] *)
| Undecodable (returncode : Z) (msg : string) (fs' : gmap path string)
                                                 (* [UnicodeDecodeError] *)
| CallFailed (msg : string) (fs' : gmap path string)  (* any other exception *)
| Completed (returncode : Z) (stderr : string) (fs' : gmap path string).

Record image := mkImage { mode : string; pixels : string }.

Abbreviation dataframe := (list (list string)).


Record Env := mkEnv {
  HAS_FILETYPE : bool;
  HAS_PILLOW : bool;
  HAS_PANDAS : bool;
  HAS_PDFIUM : bool;
  (* [subprocess.run(argv, timeout=t)] on a file system *)
  run_program : list string → Z → gmap path string → proc_outcome;
  (* [filetype.guess(path)]: the mime of the kind, on the file's contents *)
  filetype_guess : option string → option string;
  (* [mimetypes.guess_type(filename)[0]] *)
  mimetypes_guess_type : string → option string;
  (* Pillow: a library failure is its message; a failed save leaves no file *)
  Image_open : option string → string + image;
  Image_convert : image → string → image;
  Image_save : image → string → option Z → string + string;
  (* pandas *)
  read_csv : option string → string + dataframe;
  read_excel : option string → string + dataframe;
  to_csv : dataframe → string + string;
  to_excel : dataframe → string + string;
  (* pypdfium2 *)
  PdfDocument : option string → string + list string;  (* the pages *)
  page_render : string → Z → string + image;
}.

(** ** The type classifier *)

(** [d[k]] *)
Definition dict_getitem {V} (d : gmap string V) (k : string) : exn + V :=
  match d !! k with
  | Some v => inr v
  | None => inl (KeyError k)
  end.

(** [if mime:] a hint that is [None] or the empty string is no hint. *)
Definition truthy (mime : option string) : option string :=
  match mime with
  | Some "" => None
  | _ => mime
  end.

(** [detect_category] *)
Definition detect_category (filename : string) (mime : option string) : exn + string :=
  let ext := Str.lower (Str.lstrip_dot (Path.suffix (Path.parse filename))) in
  if dict_mem EXT_TO_CATEGORY ext then dict_getitem EXT_TO_CATEGORY ext
  else
    match truthy mime with
    | Some mime =>
        if Str.startswith mime "image/" then inr "image"
        else if Str.startswith mime "audio/" then inr "audio"
        else if Str.startswith mime "video/" then inr "video"
        else if dict_mem MIME_TO_CATEGORY mime then dict_getitem MIME_TO_CATEGORY mime
        else inr "unknown"
    | None => inr "unknown"
    end.

(** ** The suggestion engine and the validation of targets *)

(** The two lines of [upload_file] that compute the suggestions:
    [FORMAT_MAP.get(category, [])] filtered by
    [normalize_ext(s) != input_ext]. *)
Definition suggestions (category input_ext : string) : list string :=
  let input_ext := normalize_ext input_ext in
  filter (λ s, normalize_ext s ≠ input_ext) (dict_get FORMAT_MAP category []).

(** [allowed_targets] of [convert_file], a Python set. *)
Definition allowed_targets (category : string) : gset string :=
  list_to_set (normalize_ext <$> dict_get FORMAT_MAP category []).

(** The test [target in allowed_targets] of [convert_file] on the target
    format of the request. *)
Definition is_valid_target (category target_format : string) : bool :=
  let target_raw := Str.lstrip_dot (Str.lower target_format) in
  let target := normalize_ext target_raw in
  bool_decide (target ∈ allowed_targets category).

Record UploadResponse := mkUploadResponse {
  up_file_id : string;
  up_filename : string;
  up_category : string;
  up_mime_type : string;
  up_suggestions : list string;
}.

Record ConvertRequest := mkConvertRequest {
  file_id : string;
  filename : string;
  target_format : string;
}.

Record FileResponse := mkFileResponse {
  resp_path : string;
  resp_filename : string;
  resp_media_type : string;
}.

(** [fmt_map] of [convert_office]: the names LibreOffice gives the formats. *)
Definition office_fmt_map : gmap string string :=
  list_to_map [("pdf", "pdf"); ("txt", "txt"); ("odt", "odt");
               ("docx", "docx"); ("html", "html"); ("odp", "odp");
               ("pptx", "pptx"); ("csv", "csv"); ("xlsx", "xlsx")].

(** The command line of [convert_office]. *)
Definition libreoffice_argv (src dst : path) (lo_format : string) : list string :=
  ["libreoffice"; "--headless"; "--convert-to"; lo_format;
   "--outdir"; Path.str (Path.parent dst); Path.str src].

(** The command line of [convert_pdf_with_poppler]. *)
Definition pdftoppm_argv (src dst : path) (target : string) : list string :=
  let poppler_target := if bool_decide (target = "jpg") then "jpeg" else target in
  let prefix := Path.parent dst // Path.stem dst in
  ["pdftoppm"; "-r"; "150"; "-singlefile"; "-" ++ poppler_target;
   Path.str src; Path.str prefix].

(** [candidates] of [convert_pdf_with_poppler]. *)
Definition poppler_candidates (dst : path) (target : string) : list path :=
  [Path.parent dst // (Path.stem dst ++ "." ++ target)] ++
  (if bool_decide (target = "jpg")
   then [Path.parent dst // (Path.stem dst ++ ".jpeg")] else []).

Section endpoints.

Context (env : Env).

(** A library call: its failure is raised as an exception of the library. *)
Definition lib {A} (r : string + A) : M A :=
  match r with
  | inl msg => raise (LibraryError msg)
  | inr x => mret x
  end.

(** The contents of a file, as a library that opens it sees them. *)
Definition read_file (p : path) : M (option string) :=
  f ← get_fs; mret (f !! p).

(** A library writes [data] to [p]. *)
Definition write_file (p : path) (data : string) : M unit :=
  f ← get_fs; put_fs (<[p := data]> f).

(** [subprocess.run(argv, capture_output=True, text=True, timeout=t)]:
    the return code and the captured standard error, or the exception of the
    call. *)
Definition subprocess_run (argv : list string) (t : Z) : M (Z * string) :=
  emit (Subprocess argv);;
  f ← get_fs;
  match run_program env argv t f with
  | NotInstalled => raise (FileNotFoundError (default "" (head argv)))
  | TimedOut f' => put_fs f';; raise (TimeoutExpired (default "" (head argv)))
  | Undecodable _ msg f' => put_fs f';; raise (UnicodeDecodeError msg)
  | CallFailed msg f' => put_fs f';; raise (LibraryError msg)
  | Completed rc err f' => put_fs f';; mret (rc, err)
  end.

(** [upload_file]: [fid] is the fresh uuid, [content_type] the type the
    client declared. *)
Definition upload_file (fid fname : string) (content : string)
    (content_type : option string) : M UploadResponse :=
  let ext := Path.suffix (Path.parse fname) in
  let save_path := UPLOAD_DIR // (fid ++ ext) in
  write_file save_path content;;
  let mime := default "" (truthy content_type) in
  let mime :=
    if HAS_FILETYPE env then
      match filetype_guess env (Some content) with
      | Some kind_mime => kind_mime
      | None => mime
      end
    else mime in
  let mime :=
    if bool_decide (mime = "") || bool_decide (mime = "application/octet-stream") then
      match truthy (mimetypes_guess_type env fname) with
      | Some guessed => guessed
      | None => mime
      end
    else mime in
  category ← lift (detect_category fname (Some mime));
  let suggestions_ := suggestions category (Str.lstrip_dot (Path.suffix (Path.parse fname))) in
  mret (mkUploadResponse fid fname category mime suggestions_).

(** [img.mode in ("RGBA", "LA", "P")] *)
Definition needs_flatten (img : image) : bool :=
  bool_decide (mode img ∈ ["RGBA"; "LA"; "P"]).

(** [img.save(dst, fmt, quality=q)] *)
Definition img_save (img : image) (dst : path) (fmt : string) (q : option Z) : M unit :=
  emit (ImageSave dst fmt);;
  data ← lib (Image_save env img fmt q);
  write_file dst data.

(** [convert_image] *)
Definition convert_image (src dst : path) (target : string) : M unit :=
  emit (Enter "convert_image");;
  if negb (HAS_PILLOW env) then raise (RuntimeError "Pillow not installed")
  else
    emit (ImageOpen src);;
    c ← read_file src;
    img ← lib (Image_open env c);
    if bool_decide (target = "jpg") then
      let img := if needs_flatten img then Image_convert env img "RGB" else img in
      img_save img dst "JPEG" (Some 95)
    else if bool_decide (target = "pdf") then
      let img := if needs_flatten img then Image_convert env img "RGB" else img in
      img_save img dst "PDF" None
    else
      let fmt_map : gmap string string :=
        list_to_map [("webp", "WEBP"); ("png", "PNG"); ("tiff", "TIFF");
                     ("bmp", "BMP"); ("gif", "GIF"); ("ico", "ICO")] in
      let fmt := dict_get fmt_map target (Str.upper target) in
      img_save img dst fmt None.

(** [convert_media] *)
Definition convert_media (src dst : path) (target : string) : M unit :=
  emit (Enter "convert_media");;
  result ← subprocess_run ["ffmpeg"; "-y"; "-i"; Path.str src; Path.str dst] 300;
  if bool_decide (result.1 ≠ 0) then
    raise (RuntimeError ("ffmpeg error: " ++ Str.last_chars 500 result.2))
  else mret ().

(** [convert_office] *)
Definition convert_office (src dst : path) (target : string) : M unit :=
  emit (Enter "convert_office");;
  let fmt_map := office_fmt_map in
  let lo_format := dict_get fmt_map target target in
  result ← subprocess_run (libreoffice_argv src dst lo_format) 120;
  if bool_decide (result.1 ≠ 0) then
    raise (RuntimeError ("LibreOffice error: " ++ Str.last_chars 500 result.2))
  else
    let expected := Path.parent dst // (Path.stem src ++ "." ++ lo_format) in
    e ← path_exists expected;
    if e && bool_decide (expected ≠ dst) then path_rename expected dst
    else mret ().

(** [convert_spreadsheet] *)
Definition convert_spreadsheet (src dst : path) (target : string) : M unit :=
  emit (Enter "convert_spreadsheet");;
  if negb (HAS_PANDAS env) then raise (RuntimeError "pandas not installed")
  else
    let ext := Str.lower (Path.suffix src) in
    df ← (if bool_decide (ext = ".csv")
          then emit (ReadCsv src);; c ← read_file src; lib (read_csv env c)
          else emit (ReadExcel src);; c ← read_file src; lib (read_excel env c));
    if bool_decide (target = "csv") then
      emit (ToCsv dst);; data ← lib (to_csv env df); write_file dst data
    else if bool_decide (target = "xlsx") then
      emit (ToExcel dst);; data ← lib (to_excel env df); write_file dst data
    else if bool_decide (target = "pdf") then
      convert_office src dst "pdf"
    else raise (RuntimeError ("Unsupported spreadsheet target: " ++ target)).

(** The [for candidate in candidates] loop of [convert_pdf_with_poppler]:
    the first candidate that exists is moved to [dst]; [false] when the
    loop ends without one. *)
Fixpoint take_candidate (dst : path) (candidates : list path) : M bool :=
  match candidates with
  | [] => mret false
  | candidate :: rest =>
      e ← path_exists candidate;
      if e : bool then
        (if bool_decide (candidate ≠ dst) then path_rename candidate dst else mret ());;
        mret true
      else take_candidate dst rest
  end.

(** [convert_pdf_with_poppler] *)
Definition convert_pdf_with_poppler (src dst : path) (target : string) : M bool :=
  emit (Enter "convert_pdf_with_poppler");;
  try_except
    (result ← subprocess_run (pdftoppm_argv src dst target) 60;
     if bool_decide (result.1 ≠ 0) then mret false
     else
       let candidates := poppler_candidates dst target in
       take_candidate dst candidates)
    (λ e, match e with
          | FileNotFoundError _ => Some (mret false)
          | _ => None
          end).

(** The body of the [try] of [convert_pdf_with_pdfium] once the document
    is open. *)
Definition pdfium_render_first (pdf : list string) (dst : path) (target : string) : M bool :=
  if bool_decide (length pdf = 0%nat) then raise (RuntimeError "PDF has no pages")
  else
    match pdf !! 0%nat with
    | None => raise (LibraryError "IndexError")
    | Some page =>
        emit (PdfRender 0);;
        pil_image ← lib (page_render env page 2);
        if bool_decide (target = "jpg") then
          let pil_image :=
            if needs_flatten pil_image then Image_convert env pil_image "RGB"
            else pil_image in
          img_save pil_image dst "JPEG" (Some 92);; mret true
        else if bool_decide (target = "png") then
          img_save pil_image dst "PNG" None;; mret true
        else if bool_decide (target = "webp") then
          img_save pil_image dst "WEBP" (Some 90);; mret true
        else mret false
    end.

(** [convert_pdf_with_pdfium].  When [PdfDocument] raises, [pdf] is still
    [None]: the handler returns [False] and nothing is closed; once the
    document is open, every exception of the body becomes [False] and the
    document is closed on the way out. *)
Definition convert_pdf_with_pdfium (src dst : path) (target : string) : M bool :=
  emit (Enter "convert_pdf_with_pdfium");;
  if negb (HAS_PDFIUM env) then mret false
  else
    emit (PdfOpen (Path.str src));;
    c ← read_file src;
    match PdfDocument env c with
    | inl _ => mret false
    | inr pdf =>
        try_finally
          (try_except (pdfium_render_first pdf dst target) (λ _, Some (mret false)))
          (emit PdfClose)
    end.

(** [convert_pdf] *)
Definition convert_pdf (src dst : path) (target : string) : M unit :=
  emit (Enter "convert_pdf");;
  if bool_decide (target ∈ ["png"; "jpg"]) then
    ok ← convert_pdf_with_poppler src dst target;
    if ok : bool then mret ()
    else
      ok ← convert_pdf_with_pdfium src dst target;
      if ok : bool then mret ()
      else raise (RuntimeError
        "No PDF-to-image backend available. Install poppler (pdftoppm) or pypdfium2.")
  else if bool_decide (target = "webp") then
    ok ← convert_pdf_with_pdfium src dst target;
    if ok : bool then mret ()
    else raise (RuntimeError "PDF to WEBP requires pypdfium2.")
  else if bool_decide (target = "txt") then
    result ← subprocess_run ["pdftotext"; Path.str src; Path.str dst] 60;
    if bool_decide (result.1 ≠ 0) then
      raise (RuntimeError ("pdftotext error: " ++ result.2))
    else mret ()
  else raise (RuntimeError ("Unsupported PDF target: " ++ target)).

(** The [if category == ...] chain inside the [try] of [convert_file]. *)
Definition dispatch (category : string) (input_path output_path : path)
    (target : string) : M unit :=
  if bool_decide (category = "image") then
    convert_image input_path output_path target
  else if bool_decide (category ∈ ["audio"; "video"]) then
    convert_media input_path output_path target
  else if bool_decide (category = "spreadsheet") then
    convert_spreadsheet input_path output_path target
  else if bool_decide (category ∈ ["document"; "presentation"]) then
    convert_office input_path output_path target
  else if bool_decide (category = "pdf") then
    convert_pdf input_path output_path target
  else raise (HTTPException 400 ("Unsupported category: " ++ category)).

(** [convert_file] *)
Definition convert_file (req : ConvertRequest) : M FileResponse :=
  let input_ext := Path.suffix (Path.parse (filename req)) in
  let input_path := UPLOAD_DIR // (file_id req ++ input_ext) in
  e ← path_exists input_path;
  if negb e then raise (HTTPException 404 "Upload not found")
  else
    category ← lift (detect_category (filename req) None);
    let target_raw := Str.lstrip_dot (Str.lower (target_format req)) in
    let target := normalize_ext target_raw in
    let output_ext := target_raw in
    let output_filename := Path.stem (Path.parse (filename req)) ++ "." ++ output_ext in
    let output_path := OUTPUT_DIR // (file_id req ++ "_" ++ output_filename) in
    if negb (bool_decide (target ∈ allowed_targets category)) then
      raise (HTTPException 400
        ("Target ." ++ target_raw ++ " is not supported for " ++ category))
    else
      try_except (dispatch category input_path output_path target)
        (λ e, if is_HTTPException e then None
              else Some (raise (HTTPException 500 ("Conversion failed: " ++ exn_str e))));;
      e ← path_exists output_path;
      if negb e then raise (HTTPException 500 "Conversion produced no output file")
      else mret (mkFileResponse (Path.str output_path) output_filename
                   "application/octet-stream").

End endpoints.

(** ** Notions used by the statements *)

(** The alias table applied to a string that is already lower-case and has
    no leading dot. *)
Definition apply_alias (clean : string) : string := dict_get EXT_ALIASES clean clean.

(** The catalog row of a category: [FORMAT_MAP.get(category, [])]. *)
Definition catalog_row (category : string) : list string :=
  dict_get FORMAT_MAP category [].

(** The seven categories of the catalog. *)
Definition catalog_categories : list string :=
  ["image"; "audio"; "video"; "spreadsheet"; "document"; "presentation"; "pdf"].

(** The extension of a file name as [detect_category] computes it. *)
Definition file_ext (filename : string) : string :=
  Str.lower (Str.lstrip_dot (Path.suffix (Path.parse filename))).

(** The classifier in the words of the specification: the normalized
    extension decides when the extension table has it; otherwise a hint, when
    present, decides by its prefix or by the mime table; otherwise the
    category is unknown. *)
Definition classify_spec (filename : string) (mime_hint : option string) : string :=
  match EXT_TO_CATEGORY !! normalize_ext (Path.suffix (Path.parse filename)) with
  | Some category => category
  | None =>
      match mime_hint with
      | Some mime =>
          if Str.startswith mime "image/" then "image"
          else if Str.startswith mime "audio/" then "audio"
          else if Str.startswith mime "video/" then "video"
          else default "unknown" (MIME_TO_CATEGORY !! mime)
      | None => "unknown"
      end
  end.

(** The upload a request names. *)
Definition input_path_of (req : ConvertRequest) : path :=
  UPLOAD_DIR // (file_id req ++ Path.suffix (Path.parse (filename req))).

(** The target of a request, lower-cased and without leading dots
    ([target_raw] of [convert_file]). *)
Definition target_raw_of (req : ConvertRequest) : string :=
  Str.lstrip_dot (Str.lower (target_format req)).

(** The rejection of [convert_file] at the validation of the target. *)
Definition unsupported_target (target_raw category : string) : exn :=
  HTTPException 400 ("Target ." ++ target_raw ++ " is not supported for " ++ category).

(** [output_path] and the response of [convert_file]. *)
Definition output_filename_of (req : ConvertRequest) : string :=
  Path.stem (Path.parse (filename req)) ++ "." ++ target_raw_of req.

Definition output_path_of (req : ConvertRequest) : path :=
  OUTPUT_DIR // (file_id req ++ "_" ++ output_filename_of req).

Definition no_http {A} (m : M A) : Prop :=
  ∀ w e w', m w = (inl e, w') → is_HTTPException e = false.

(** The path LibreOffice writes to: [expected] of [convert_office]. *)
Definition office_expected (src dst : path) (target : string) : path :=
  Path.parent dst // (Path.stem src ++ "." ++ target).

(** The library call that reads the source, and its event. *)
Definition read_source (env : Env) (src : path) (w : World) : string + dataframe :=
  if bool_decide (Str.lower (Path.suffix src) = ".csv")
  then read_csv env (fs w !! src) else read_excel env (fs w !! src).

Definition read_event (src : path) : event :=
  if bool_decide (Str.lower (Path.suffix src) = ".csv") then ReadCsv src else ReadExcel src.

(** The world once the source is read. *)
Definition after_read (src : path) (w : World) : World :=
  mkWorld (fs w) (log w ++ [Enter "convert_spreadsheet"; read_event src]).

(** A library serializes the table and the result is written to [dst]. *)
Definition serialized (ev : event) (r : string + string) (dst : path) (w : World)
    : (exn + unit) * World :=
  match r with
  | inr data => (inr (), mkWorld (<[dst := data]> (fs w)) (log w ++ [ev]))
  | inl msg => (inl (LibraryError msg), mkWorld (fs w) (log w ++ [ev]))
  end.

(** The events of an adapter function being entered. *)
Definition is_Enter (ev : event) : bool :=
  match ev with Enter _ => true | _ => false end.

(** The world once the Primary Renderer has run and left the files [f1]. *)
Definition after_poppler (src dst : path) (target : string) (w : World)
    (f1 : gmap path string) : World :=
  mkWorld f1 (log w ++ [Enter "convert_pdf_with_poppler";
                        Subprocess (pdftoppm_argv src dst target)]).

(** The mime type [upload_file] settles on. *)
Definition upload_mime (env : Env) (fname content : string)
    (content_type : option string) : string :=
  let mime := default "" (truthy content_type) in
  let mime :=
    if HAS_FILETYPE env then default mime (filetype_guess env (Some content)) else mime in
  if bool_decide (mime = "") || bool_decide (mime = "application/octet-stream")
  then default mime (truthy (mimetypes_guess_type env fname)) else mime.

(** A concrete environment.
    No image library; pandas and pypdfium2 as given; the external programs
    behave as [prog].  A spreadsheet is one row per line, a PDF one page per
    line (an empty file has no page), an encoder prefixes the pixels with the
    name of the format. *)
Definition lines (data : string) : list string :=
  if bool_decide (data = "") then [] else Str.split "010"%char data.

Definition sample_env (pandas pdfium : bool)
    (prog : list string → Z → gmap path string → proc_outcome) : Env :=
  {| HAS_FILETYPE := false;
     HAS_PILLOW := false;
     HAS_PANDAS := pandas;
     HAS_PDFIUM := pdfium;
     run_program := prog;
     filetype_guess := λ _, None;
     mimetypes_guess_type := λ _, None;
     Image_open := λ _, inl "cannot identify image file";
     Image_convert := λ img m, mkImage m (pixels img);
     Image_save := λ img fmt _, inr (fmt ++ ":" ++ pixels img);
     read_csv := λ c, match c with
                      | Some data => inr ((λ l, [l]) <$> lines data)
                      | None => inl "No such file"
                      end;
     read_excel := λ c, match c with
                        | Some data => inr ((λ l, [l]) <$> lines data)
                        | None => inl "No such file"
                        end;
     to_csv := λ df, inr (Str.join "," (Str.join ";" <$> df));
     to_excel := λ df, inr ("PK" ++ Str.join "," (Str.join ";" <$> df));
     PdfDocument := λ c, match c with
                         | Some data => inr (lines data)
                         | None => inl "Failed to load document"
                         end;
     page_render := λ page _, inr (mkImage "RGB" page) |}.

(** No external program is installed. *)
Definition nothing_installed : list string → Z → gmap path string → proc_outcome :=
  λ _ _ _, NotInstalled.

(** pdftoppm is installed, prints bytes that are no text and exits with
    code 1; no other program is installed. *)
Definition pdftoppm_prints_no_text : list string → Z → gmap path string → proc_outcome :=
  λ argv _ f,
    if bool_decide (head argv = Some "pdftoppm")
    then Undecodable 1 "invalid start byte" f
    else NotInstalled.

(** LibreOffice is installed and writes [notes.pdf] into the output
    directory, whatever it is asked to convert. *)
Definition libreoffice_writes_notes : list string → Z → gmap path string → proc_outcome :=
  λ argv _ f,
    if bool_decide (head argv = Some "libreoffice")
    then Completed 0 "" (<[OUTPUT_DIR // "notes.pdf" := "%PDF-1.7 notes"]> f)
    else NotInstalled.

(** A world with one file. *)
Definition one_file (p : path) (data : string) : World :=
  mkWorld {[ p := data ]} [].

(** The request of the specification: target bmp for the audio file
    [song.mp3]. *)
Definition bmp_of_audio : ConvertRequest := mkConvertRequest "a1" "song.mp3" "bmp".

(** The Primary Renderer is absent, or its call returns a non-zero exit
    code, or returns and leaves no candidate file. *)
Definition primary_fell_through (env : Env) (src dst : path) (target : string)
    (w : World) : Prop :=
  match run_program env (pdftoppm_argv src dst target) 60 (fs w) with
  | NotInstalled => True
  | TimedOut _ | Undecodable _ _ _ | CallFailed _ _ => False
  | Completed rc _ f' =>
      rc ≠ 0 ∨ Forall (λ c, f' !! c = None) (poppler_candidates dst target)
  end.

(** The files the Primary Renderer leaves when it falls through. *)
Definition files_after_primary (env : Env) (src dst : path) (target : string)
    (w : World) : gmap path string :=
  match run_program env (pdftoppm_argv src dst target) 60 (fs w) with
  | NotInstalled => fs w
  | TimedOut f' | Undecodable _ _ f' | CallFailed _ f' => f'
  | Completed _ _ f' => f'
  end.

(** The events of [convert_pdf] up to the run of the Primary Renderer. *)
Definition primary_events (src dst : path) (target : string) : list event :=
  [Enter "convert_pdf"; Enter "convert_pdf_with_poppler";
   Subprocess (pdftoppm_argv src dst target)].

(** The message of [convert_pdf] when both renderers have failed. *)
Definition no_backend_message : string :=
  "No PDF-to-image backend available. Install poppler (pdftoppm) or pypdfium2.".

(** ** Notions used by the further properties *)

(** The events of an external program being run. *)
Definition is_Subprocess (ev : event) : bool :=
  match ev with Subprocess _ => true | _ => false end.

(** A computation only appends events to the log, each of them satisfying
    [P]. *)
Definition emits_only {A} (P : event → bool) (m : M A) : Prop :=
  ∀ w r w', m w = (r, w') → ∃ evs, log w' = (log w ++ evs)%list ∧ forallb P evs = true.

(** A computation runs no external program. *)
Definition in_process {A} (m : M A) : Prop :=
  emits_only (λ ev, negb (is_Subprocess ev)) m.


(** An environment in which the program [name] is installed, exits with
    [rc] and the standard error [err] and writes the files [writes]; no other
    program is installed. *)
Definition sample_tool (name : string) (rc : Z) (err : string)
    (writes : list (path * string)) : list string → Z → gmap path string → proc_outcome :=
  λ argv _ f,
    if bool_decide (head argv = Some name)
    then Completed rc err (foldr (λ pd m, <[pd.1 := pd.2]> m) f writes)
    else NotInstalled.

(** An environment in which the program [name] is installed, writes the
    files [writes] and exits with [rc], but prints what is no text in the
    encoding of the locale, so that the call raises [UnicodeDecodeError]; no
    other program is installed. *)
Definition garbling_tool (name : string) (rc : Z) (writes : list (path * string))
    : list string → Z → gmap path string → proc_outcome :=
  λ argv _ f,
    if bool_decide (head argv = Some name)
    then Undecodable rc "invalid start byte" (foldr (λ pd m, <[pd.1 := pd.2]> m) f writes)
    else NotInstalled.

(** The environment [env] with every PDF document cut down to its first
    page. *)
Definition first_page_only (env : Env) : Env :=
  {| HAS_FILETYPE := HAS_FILETYPE env;
     HAS_PILLOW := HAS_PILLOW env;
     HAS_PANDAS := HAS_PANDAS env;
     HAS_PDFIUM := HAS_PDFIUM env;
     run_program := run_program env;
     filetype_guess := filetype_guess env;
     mimetypes_guess_type := mimetypes_guess_type env;
     Image_open := Image_open env;
     Image_convert := Image_convert env;
     Image_save := Image_save env;
     read_csv := read_csv env;
     read_excel := read_excel env;
     to_csv := to_csv env;
     to_excel := to_excel env;
     PdfDocument := λ c, match PdfDocument env c with
                         | inr pages => inr (take 1 pages)
                         | inl msg => inl msg
                         end;
     page_render := page_render env |}.

(** The message of [convert_pdf] for webp when the renderer has failed. *)
Definition webp_message : string := "PDF to WEBP requires pypdfium2.".

(** ** The allowed origins of the CORS middleware *)

(** [c.isspace()] on the ASCII characters: the white space [str.strip()]
    removes. *)
Definition py_isspace (c : ascii) : bool :=
  let n := N_of_ascii c in
  (((9 <=? n) && (n <=? 13)) || ((28 <=? n) && (n <=? 32)))%N.

(** [s.lstrip()] *)
Fixpoint str_lstrip (s : string) : string :=
  match s with
  | EmptyString => EmptyString
  | String c s' => if py_isspace c then str_lstrip s' else s
  end.

(** [s.rstrip()] *)
Fixpoint str_rstrip (s : string) : string :=
  match s with
  | EmptyString => EmptyString
  | String c s' =>
      match str_rstrip s' with
      | EmptyString => if py_isspace c then EmptyString else String c EmptyString
      | r => String c r
      end
  end.

(** [s.strip()] *)
Definition str_strip (s : string) : string := str_lstrip (str_rstrip s).

(** The default of [os.getenv("ALLOWED_ORIGINS", ...)]. *)
Definition DEFAULT_ALLOWED_ORIGINS : string :=
  "http://localhost:8000,http://127.0.0.1:8000,http://localhost:5173,http://127.0.0.1:5173".

(** [allowed_origins], from the value of the environment variable
    ALLOWED_ORIGINS ([None] when it is not set). *)
Definition allowed_origins (getenv : option string) : list string :=
  let allowed_origins_raw := default DEFAULT_ALLOWED_ORIGINS getenv in
  str_strip <$> filter (λ origin, str_strip origin ≠ "") (Str.split "," allowed_origins_raw).

(** Every character of [s] satisfies [P]. *)
Fixpoint all_chars (P : ascii → bool) (s : string) : bool :=
  match s with
  | EmptyString => true
  | String c s' => P c && all_chars P s'
  end.

(** A comma or a character of white space. *)
Definition comma_or_space (c : ascii) : bool :=
  bool_decide (c = ","%char) || py_isspace c.

(** The character [c] occurs in [s]. *)
Fixpoint has_char (c : ascii) (s : string) : bool :=
  match s with
  | EmptyString => false
  | String a s' => bool_decide (a = c) || has_char c s'
  end.

(** ** Properties of strings *)

Lemma lower_char_idem c : Str.lower_char (Str.lower_char c) = Str.lower_char c.
Proof. by destruct c as [[] [] [] [] [] [] [] []]. Qed.

Lemma lower_char_dot c : Str.lower_char c = "."%char ↔ c = "."%char.
Proof. destruct c as [[] [] [] [] [] [] [] []]; split; (done || discriminate). Qed.

Lemma lower_idem s : Str.lower (Str.lower s) = Str.lower s.
Proof. induction s as [|c s IH]; simpl; [done|]. by rewrite lower_char_idem, IH. Qed.

Lemma lstrip_dot_cons_ne c s : c ≠ "."%char → Str.lstrip_dot (String c s) = String c s.
Proof.
  intros Hc. destruct c as [[] [] [] [] [] [] [] []]; try reflexivity.
  by destruct Hc.
Qed.

Lemma lstrip_dot_idem s : Str.lstrip_dot (Str.lstrip_dot s) = Str.lstrip_dot s.
Proof.
  induction s as [|c s IH]; [done|].
  destruct (decide (c = "."%char)) as [->|Hc]; [done|].
  by rewrite !lstrip_dot_cons_ne.
Qed.

Lemma lower_lstrip_dot s : Str.lower (Str.lstrip_dot s) = Str.lstrip_dot (Str.lower s).
Proof.
  induction s as [|c s IH]; [done|].
  destruct (decide (c = "."%char)) as [->|Hc]; [exact IH|].
  rewrite lstrip_dot_cons_ne by done.
  change (Str.lower (String c s)) with (String (Str.lower_char c) (Str.lower s)).
  rewrite lstrip_dot_cons_ne; [done|]. by rewrite lower_char_dot.
Qed.

(** ** Normalization and the catalog *)

Lemma EXT_ALIASES_lookup k :
  EXT_ALIASES !! k =
    if decide (k = "jpeg") then Some "jpg"
    else if decide (k = "tif") then Some "tiff" else None.
Proof.
  unfold EXT_ALIASES. cbn [list_to_map foldr uncurry fst snd].
  rewrite !lookup_insert, lookup_empty.
  repeat case_decide; congruence.
Qed.

Lemma apply_alias_cases clean :
  (clean = "jpeg" ∧ apply_alias clean = "jpg") ∨
  (clean = "tif" ∧ apply_alias clean = "tiff") ∨
  (clean ≠ "jpeg" ∧ clean ≠ "tif" ∧ apply_alias clean = clean).
Proof.
  unfold apply_alias, dict_get. rewrite EXT_ALIASES_lookup.
  repeat case_decide; subst; auto.
Qed.

Lemma clean_idem s :
  Str.lstrip_dot (Str.lower (Str.lstrip_dot (Str.lower s))) = Str.lstrip_dot (Str.lower s).
Proof. by rewrite (lower_lstrip_dot (Str.lower s)), lower_idem, lstrip_dot_idem. Qed.

Lemma normalize_ext_idem x : normalize_ext (normalize_ext x) = normalize_ext x.
Proof.
  unfold normalize_ext. fold (apply_alias (Str.lstrip_dot (Str.lower x))).
  destruct (apply_alias_cases (Str.lstrip_dot (Str.lower x)))
    as [[-> ->]|[[-> ->]|(Hj & Ht & Heq)]]; [done..|].
  rewrite Heq, clean_idem. exact Heq.
Qed.

(** Stripping and lower-casing first, in either order, changes nothing. *)
Lemma normalize_ext_clean x :
  normalize_ext (Str.lstrip_dot (Str.lower x)) = normalize_ext x.
Proof. unfold normalize_ext. by rewrite clean_idem. Qed.

Lemma normalize_ext_lstrip x : normalize_ext (Str.lstrip_dot x) = normalize_ext x.
Proof. unfold normalize_ext. by rewrite lower_lstrip_dot, lstrip_dot_idem. Qed.

Lemma FORMAT_MAP_dom category :
  is_Some (FORMAT_MAP !! category) ↔ category ∈ catalog_categories.
Proof.
  assert (dom FORMAT_MAP = list_to_set catalog_categories) as Hdom
    by (refine (bool_decide_unpack _ _); vm_compute; exact I).
  rewrite <- elem_of_dom, Hdom. apply elem_of_list_to_set.
Qed.

Lemma catalog_row_outside category :
  category ∉ catalog_categories → catalog_row category = [].
Proof.
  intros Hc. unfold catalog_row, dict_get.
  destruct (FORMAT_MAP !! category) eqn:E; [|done].
  destruct Hc. apply FORMAT_MAP_dom. by rewrite E.
Qed.

(** Every row of the catalog holds the canonical form of each of its
    entries. *)
Lemma catalog_rows_closed category a :
  a ∈ catalog_row category → normalize_ext a ∈ catalog_row category.
Proof.
  assert (map_Forall (λ _ row, Forall (λ a, normalize_ext a ∈ row) row) FORMAT_MAP) as H
    by (refine (bool_decide_unpack _ _); vm_compute; exact I).
  unfold catalog_row, dict_get.
  destruct (FORMAT_MAP !! category) as [row|] eqn:E; simpl; [|by intros ?%elem_of_nil].
  specialize (H _ _ E). simpl in H. rewrite Forall_forall in H. apply H.
Qed.

Lemma allowed_targets_spec category t :
  normalize_ext t ∈ allowed_targets category ↔ normalize_ext t ∈ catalog_row category.
Proof.
  unfold allowed_targets. fold (catalog_row category).
  rewrite elem_of_list_to_set, list_elem_of_fmap. split.
  - intros (a & -> & Ha). by apply catalog_rows_closed.
  - intros Ht. exists (normalize_ext t). by rewrite normalize_ext_idem.
Qed.

Lemma is_valid_target_spec category t :
  is_valid_target category t = true ↔ normalize_ext t ∈ catalog_row category.
Proof.
  unfold is_valid_target. rewrite bool_decide_eq_true, normalize_ext_clean.
  apply allowed_targets_spec.
Qed.

(** ** The classifier against its specification *)

Lemma dict_mem_Some {V} (d : gmap string V) k v :
  d !! k = Some v → dict_mem d k = true ∧ dict_getitem d k = inr v.
Proof.
  intros E. unfold dict_mem, dict_getitem. rewrite E. split; [|done].
  apply bool_decide_eq_true. by eexists.
Qed.

Lemma dict_mem_None {V} (d : gmap string V) k :
  d !! k = None → dict_mem d k = false.
Proof.
  intros E. unfold dict_mem. rewrite E. apply bool_decide_eq_false. by intros [? ?].
Qed.

Lemma EXT_TO_CATEGORY_normalized s :
  EXT_TO_CATEGORY !! normalize_ext s = EXT_TO_CATEGORY !! Str.lower (Str.lstrip_dot s).
Proof.
  unfold normalize_ext. rewrite lower_lstrip_dot.
  fold (apply_alias (Str.lstrip_dot (Str.lower s))).
  destruct (apply_alias_cases (Str.lstrip_dot (Str.lower s)))
    as [[-> ->]|[[-> ->]|(_ & _ & ->)]]; [by vm_compute..|done].
Qed.

Lemma detect_category_spec filename mime :
  detect_category filename mime = inr (classify_spec filename mime).
Proof.
  unfold detect_category, classify_spec. rewrite EXT_TO_CATEGORY_normalized.
  destruct (EXT_TO_CATEGORY !! _) as [c|] eqn:E.
  - by destruct (dict_mem_Some _ _ _ E) as [-> ->].
  - rewrite (dict_mem_None _ _ E).
    destruct mime as [[|a m]|]; [done| |done].
    cbn [truthy]. set (mime := String a m).
    repeat (case_match; [done|]).
    destruct (MIME_TO_CATEGORY !! mime) as [c|] eqn:Em.
    + by destruct (dict_mem_Some _ _ _ Em) as [-> ->].
    + by rewrite (dict_mem_None _ _ Em).
Qed.

(** Without an extension of the table and without a hint the category is
    unknown. *)
Lemma detect_category_unlisted filename :
  dict_mem EXT_TO_CATEGORY (file_ext filename) = false →
  detect_category filename None = inr "unknown".
Proof. intros H. unfold detect_category. fold (file_ext filename). by rewrite H. Qed.

(** What [detect_category] can return. *)
Lemma detect_category_range filename mime category :
  detect_category filename mime = inr category →
  category ∈ catalog_categories ∨ category = "unknown".
Proof.
  assert (map_Forall (λ _ c, c ∈ catalog_categories) EXT_TO_CATEGORY) as Hext
    by (refine (bool_decide_unpack _ _); vm_compute; exact I).
  assert (map_Forall (λ _ c, c ∈ catalog_categories) MIME_TO_CATEGORY) as Hmime
    by (refine (bool_decide_unpack _ _); vm_compute; exact I).
  rewrite detect_category_spec. intros [= <-]. unfold classify_spec.
  destruct (EXT_TO_CATEGORY !! _) as [c|] eqn:E; [left; by eapply Hext|].
  destruct mime as [mime|]; [|by right].
  repeat (case_match; [left; set_solver|]).
  destruct (MIME_TO_CATEGORY !! mime) as [c|] eqn:Em; [left; by eapply Hmime|by right].
Qed.

(** ** Reasoning about the monad *)

Lemma bind_unfold {A B} (m : M A) (f : A → M B) w :
  (m ≫= f) w = match m w with
               | (inl e, w') => (inl e, w')
               | (inr x, w') => f x w'
               end.
Proof. reflexivity. Qed.

Lemma path_exists_unfold p w :
  path_exists p w = (inr (bool_decide (is_Some (fs w !! p))), w).
Proof. reflexivity. Qed.

Ltac munfold :=
  repeat progress
    unfold mbind, M_bind, mret, M_ret, raise, lift, lib, emit, get_fs, put_fs,
      read_file, write_file, path_exists, try_except, try_finally in *;
  simpl in *.

Lemma convert_file_not_found env req w :
  fs w !! input_path_of req = None →
  convert_file env req w = (inl (HTTPException 404 "Upload not found"), w).
Proof.
  intros E. unfold convert_file. rewrite bind_unfold, path_exists_unfold.
  fold (input_path_of req). rewrite E.
  rewrite bool_decide_eq_false_2 by (by intros [? ?]). reflexivity.
Qed.

Lemma convert_file_invalid env req w category :
  is_Some (fs w !! input_path_of req) →
  detect_category (filename req) None = inr category →
  is_valid_target category (target_format req) = false →
  convert_file env req w =
    (inl (unsupported_target (target_raw_of req) category), w).
Proof.
  intros E Hc Hv. unfold convert_file. rewrite bind_unfold, path_exists_unfold.
  fold (input_path_of req). rewrite bool_decide_eq_true_2 by done.
  cbn [negb]. rewrite bind_unfold, Hc. unfold lift.
  unfold is_valid_target in Hv. rewrite Hv. reflexivity.
Qed.

(** [convert_file] once the upload is found and the target is valid. *)
Lemma convert_file_valid env req w category :
  is_Some (fs w !! input_path_of req) →
  detect_category (filename req) None = inr category →
  is_valid_target category (target_format req) = true →
  convert_file env req w =
    match dispatch env category (input_path_of req) (output_path_of req)
            (normalize_ext (target_raw_of req)) w with
    | (inl e, w') =>
        if is_HTTPException e then (inl e, w')
        else (inl (HTTPException 500 ("Conversion failed: " ++ exn_str e)), w')
    | (inr _, w') =>
        if bool_decide (is_Some (fs w' !! output_path_of req)) then
          (inr (mkFileResponse (Path.str (output_path_of req)) (output_filename_of req)
                  "application/octet-stream"), w')
        else (inl (HTTPException 500 "Conversion produced no output file"), w')
    end.
Proof.
  intros E Hc Hv. unfold convert_file. rewrite bind_unfold, path_exists_unfold.
  fold (input_path_of req). rewrite bool_decide_eq_true_2 by done.
  cbn [negb]. rewrite bind_unfold, Hc. unfold lift.
  unfold is_valid_target in Hv. rewrite Hv. cbn [negb].
  fold (target_raw_of req). fold (output_filename_of req). fold (output_path_of req).
  rewrite bind_unfold. unfold try_except.
  destruct (dispatch _ _ _ _ _ w) as [[e|[]] w'].
  - by destruct (is_HTTPException e).
  - rewrite bind_unfold, path_exists_unfold.
    by destruct (bool_decide (is_Some (fs w' !! output_path_of req))).
Qed.

(** ** No adapter raises an [HTTPException] *)

Lemma no_http_ret {A} (x : A) : no_http (mret x).
Proof. by intros w e w' [=]. Qed.

Lemma no_http_raise {A} e : is_HTTPException e = false → no_http (@raise A e).
Proof. by intros He w e' w' [= <- <-]. Qed.

Lemma no_http_bind {A B} (m : M A) (f : A → M B) :
  no_http m → (∀ x, no_http (f x)) → no_http (m ≫= f).
Proof.
  intros Hm Hf w e w'. rewrite bind_unfold.
  destruct (m w) as [[e1|x] w1] eqn:E.
  - intros [= <- <-]. by eapply Hm.
  - apply Hf.
Qed.

Lemma no_http_emit ev : no_http (emit ev).
Proof. by intros w e w' [=]. Qed.

Lemma no_http_lib {A} (r : string + A) : no_http (lib r).
Proof. destruct r; [by apply no_http_raise | apply no_http_ret]. Qed.

Lemma no_http_read_file p : no_http (read_file p).
Proof. by intros w e w' [=]. Qed.

Lemma no_http_write_file p d : no_http (write_file p d).
Proof. by intros w e w' [=]. Qed.

Lemma no_http_path_exists p : no_http (path_exists p).
Proof. by intros w e w' [=]. Qed.

Lemma no_http_path_rename p q : no_http (path_rename p q).
Proof.
  intros w e w'. unfold path_rename. rewrite bind_unfold. cbn.
  destruct (fs w !! p); [by intros [=] | by intros [= <- <-]].
Qed.

Lemma no_http_subprocess_run env argv t : no_http (subprocess_run env argv t).
Proof.
  intros w e w'. unfold subprocess_run. munfold.
  destruct (run_program env argv t (fs w)); by intros [= <- <-].
Qed.

Lemma no_http_try_except {A} (m : M A) h :
  no_http m → (∀ e k, h e = Some k → no_http k) → no_http (try_except m h).
Proof.
  intros Hm Hh w e w'. unfold try_except.
  destruct (m w) as [[e1|x] w1] eqn:E; [|by intros [=]].
  destruct (h e1) as [k|] eqn:Ek.
  - by apply (Hh _ _ Ek).
  - intros [= <- <-]. by eapply Hm.
Qed.

Lemma no_http_try_finally {A} (m : M A) f :
  no_http m → no_http f → no_http (try_finally m f).
Proof.
  intros Hm Hf w e w'. unfold try_finally.
  destruct (m w) as [r w1] eqn:E. destruct (f w1) as [[e2|[]] w2] eqn:E2.
  - intros [= <- <-]. by eapply Hf.
  - intros [= -> <-]. by eapply Hm.
Qed.

Create HintDb no_http.
#[local] Hint Resolve no_http_ret no_http_emit no_http_lib no_http_read_file
  no_http_write_file no_http_path_exists no_http_path_rename
  no_http_subprocess_run : no_http.

Ltac no_http_step :=
  first
    [ solve [auto with no_http]
    | apply no_http_raise; reflexivity
    | apply no_http_bind; [|intros ?]
    | case_match ].

Lemma no_http_img_save env img dst fmt q : no_http (img_save env img dst fmt q).
Proof. unfold img_save. repeat no_http_step. Qed.

Lemma no_http_convert_image env src dst target : no_http (convert_image env src dst target).
Proof.
  pose proof (no_http_img_save env). unfold convert_image. repeat no_http_step.
Qed.

Lemma no_http_convert_media env src dst target : no_http (convert_media env src dst target).
Proof. unfold convert_media. repeat no_http_step. Qed.

Lemma no_http_convert_office env src dst target : no_http (convert_office env src dst target).
Proof. unfold convert_office. repeat no_http_step. Qed.

Lemma no_http_convert_spreadsheet env src dst target :
  no_http (convert_spreadsheet env src dst target).
Proof.
  pose proof (no_http_convert_office env). unfold convert_spreadsheet.
  repeat no_http_step.
Qed.

Lemma no_http_take_candidate dst cands : no_http (take_candidate dst cands).
Proof. induction cands as [|c cs IH]; simpl; repeat no_http_step. Qed.

Lemma no_http_convert_pdf_with_poppler env src dst target :
  no_http (convert_pdf_with_poppler env src dst target).
Proof.
  pose proof no_http_take_candidate. unfold convert_pdf_with_poppler.
  apply no_http_bind; [auto with no_http|intros _].
  apply no_http_try_except; [repeat no_http_step|].
  intros [] k [= <-]. apply no_http_ret.
Qed.

Lemma no_http_convert_pdf_with_pdfium env src dst target :
  no_http (convert_pdf_with_pdfium env src dst target).
Proof.
  pose proof (no_http_img_save env). unfold convert_pdf_with_pdfium, pdfium_render_first.
  apply no_http_bind; [auto with no_http|intros _].
  destruct (negb _); [apply no_http_ret|].
  do 2 (apply no_http_bind; [auto with no_http|intros ?]).
  destruct (PdfDocument _ _); [apply no_http_ret|].
  apply no_http_try_finally; [|auto with no_http].
  apply no_http_try_except; [repeat no_http_step|].
  intros e k [= <-]. apply no_http_ret.
Qed.

Lemma no_http_convert_pdf env src dst target : no_http (convert_pdf env src dst target).
Proof.
  pose proof (no_http_convert_pdf_with_poppler env).
  pose proof (no_http_convert_pdf_with_pdfium env).
  unfold convert_pdf. repeat no_http_step.
Qed.

Lemma no_http_dispatch env category input_path output_path target :
  category ∈ catalog_categories →
  no_http (dispatch env category input_path output_path target).
Proof.
  intros Hc. unfold dispatch.
  repeat (case_bool_decide;
          [ first [ apply no_http_convert_image | apply no_http_convert_media
                  | apply no_http_convert_spreadsheet | apply no_http_convert_office
                  | apply no_http_convert_pdf ] | ]).
  exfalso. unfold catalog_categories in Hc.
  rewrite ?elem_of_cons, ?elem_of_nil in *. tauto.
Qed.

(** ** The Office adapter *)

(** The table of format names is the identity on its keys, so the name
    passed to LibreOffice is the target itself. *)
Lemma office_lo_format target : dict_get office_fmt_map target target = target.
Proof.
  assert (map_Forall (λ k v, k = v) office_fmt_map) as H
    by (refine (bool_decide_unpack _ _); vm_compute; exact I).
  unfold dict_get. destruct (office_fmt_map !! target) as [v|] eqn:E; [|done].
  simpl. symmetry. by apply (H _ _ E).
Qed.

Lemma subprocess_run_completed env argv t w rc err f' :
  run_program env argv t (fs w) = Completed rc err f' →
  subprocess_run env argv t w =
    (inr (rc, err), mkWorld f' (log w ++ [Subprocess argv])%list).
Proof. intros E. unfold subprocess_run. munfold. by rewrite E. Qed.

Lemma subprocess_run_not_installed env argv t w :
  run_program env argv t (fs w) = NotInstalled →
  subprocess_run env argv t w =
    (inl (FileNotFoundError (default "" (head argv))),
     mkWorld (fs w) (log w ++ [Subprocess argv])%list).
Proof. intros E. unfold subprocess_run. munfold. by rewrite E. Qed.

Lemma subprocess_run_timed_out env argv t w f' :
  run_program env argv t (fs w) = TimedOut f' →
  subprocess_run env argv t w =
    (inl (TimeoutExpired (default "" (head argv))),
     mkWorld f' (log w ++ [Subprocess argv])%list).
Proof. intros E. unfold subprocess_run. munfold. by rewrite E. Qed.

Lemma subprocess_run_undecodable env argv t w rc msg f' :
  run_program env argv t (fs w) = Undecodable rc msg f' →
  subprocess_run env argv t w =
    (inl (UnicodeDecodeError msg), mkWorld f' (log w ++ [Subprocess argv])%list).
Proof. intros E. unfold subprocess_run. munfold. by rewrite E. Qed.

Lemma subprocess_run_call_failed env argv t w msg f' :
  run_program env argv t (fs w) = CallFailed msg f' →
  subprocess_run env argv t w =
    (inl (LibraryError msg), mkWorld f' (log w ++ [Subprocess argv])%list).
Proof. intros E. unfold subprocess_run. munfold. by rewrite E. Qed.

Lemma emit_unfold ev w : emit ev w = (inr (), mkWorld (fs w) (log w ++ [ev])%list).
Proof. reflexivity. Qed.

Lemma path_rename_Some src dst w c :
  fs w !! src = Some c →
  path_rename src dst w =
    (inr (), mkWorld (<[dst := c]> (delete src (fs w))) (log w ++ [Rename src dst])%list).
Proof. intros E. unfold path_rename. rewrite bind_unfold. cbn. by rewrite E. Qed.

(** [convert_office] after LibreOffice returned 0. *)
Lemma convert_office_completed env src dst target w err f' :
  run_program env (libreoffice_argv src dst target) 120 (fs w) = Completed 0 err f' →
  let expected := office_expected src dst target in
  let log1 := (log w ++ [Enter "convert_office";
                         Subprocess (libreoffice_argv src dst target)])%list in
  convert_office env src dst target w =
    match f' !! expected with
    | Some c =>
        if decide (expected ≠ dst)
        then (inr (), mkWorld (<[dst := c]> (delete expected f'))
                       (log1 ++ [Rename expected dst])%list)
        else (inr (), mkWorld f' log1)
    | None => (inr (), mkWorld f' log1)
    end.
Proof.
  intros E expected log1. unfold convert_office.
  rewrite bind_unfold, emit_unfold. cbv zeta. rewrite office_lo_format.
  rewrite bind_unfold, (subprocess_run_completed _ _ _ _ 0 err f') by exact E.
  cbn [fst snd fs log]. rewrite bool_decide_eq_false_2 by (intros H; by apply H).
  rewrite bind_unfold, path_exists_unfold. cbn [fs].
  fold (office_expected src dst target). fold expected.
  subst log1. rewrite <- !app_assoc. cbn [app].
  destruct (f' !! expected) as [c|] eqn:Ec.
  - rewrite bool_decide_eq_true_2 by (by eexists). cbn [andb].
    destruct (decide (expected ≠ dst)) as [Hne|Heq].
    + rewrite (bool_decide_eq_true_2 _ Hne).
      rewrite (path_rename_Some _ _ _ c) by exact Ec. cbn [fs log].
      by rewrite <- app_assoc.
    + by rewrite (bool_decide_eq_false_2 _ Heq).
  - rewrite bool_decide_eq_false_2 by (by intros [? ?]). reflexivity.
Qed.

(** ** The spreadsheet adapter *)

Lemma convert_spreadsheet_no_pandas env src dst target w :
  HAS_PANDAS env = false →
  convert_spreadsheet env src dst target w =
    (inl (RuntimeError "pandas not installed"),
     mkWorld (fs w) (log w ++ [Enter "convert_spreadsheet"])).
Proof. intros E. unfold convert_spreadsheet. rewrite bind_unfold, emit_unfold, E. reflexivity. Qed.

Lemma convert_spreadsheet_unparsed env src dst target w msg :
  HAS_PANDAS env = true →
  read_source env src w = inl msg →
  convert_spreadsheet env src dst target w = (inl (LibraryError msg), after_read src w).
Proof.
  intros E Hr. unfold convert_spreadsheet, read_source, after_read, read_event in *.
  rewrite bind_unfold, emit_unfold, E. cbn [negb].
  rewrite bind_unfold.
  destruct (bool_decide (Str.lower (Path.suffix src) = ".csv")); munfold;
    rewrite Hr; simpl; by rewrite <- app_assoc.
Qed.

Lemma convert_spreadsheet_parsed env src dst target w df :
  HAS_PANDAS env = true →
  read_source env src w = inr df →
  convert_spreadsheet env src dst target w =
    if bool_decide (target = "csv") then
      serialized (ToCsv dst) (to_csv env df) dst (after_read src w)
    else if bool_decide (target = "xlsx") then
      serialized (ToExcel dst) (to_excel env df) dst (after_read src w)
    else if bool_decide (target = "pdf") then
      convert_office env src dst "pdf" (after_read src w)
    else (inl (RuntimeError ("Unsupported spreadsheet target: " ++ target)),
          after_read src w).
Proof.
  intros E Hr. unfold convert_spreadsheet, read_source, after_read, read_event in *.
  rewrite bind_unfold, emit_unfold, E. cbn [negb].
  rewrite bind_unfold.
  assert (∀ (k : dataframe → M unit),
    match
      (if bool_decide (Str.lower (Path.suffix src) = ".csv")
       then emit (ReadCsv src);; c ← read_file src; lib (read_csv env c)
       else emit (ReadExcel src);; c ← read_file src; lib (read_excel env c))
        (mkWorld (fs w) (log w ++ [Enter "convert_spreadsheet"]))
    with
    | (inl e, w') => (inl e, w')
    | (inr x, w') => k x w'
    end =
    k df (mkWorld (fs w)
            (log w ++ [Enter "convert_spreadsheet";
                       if bool_decide (Str.lower (Path.suffix src) = ".csv")
                       then ReadCsv src else ReadExcel src]))) as Hread.
  { intros k. destruct (bool_decide (Str.lower (Path.suffix src) = ".csv"));
      munfold; rewrite Hr; simpl; by rewrite <- app_assoc. }
  rewrite Hread. clear Hread.
  repeat case_bool_decide; try reflexivity;
    unfold serialized; munfold; by destruct (_ env df).
Qed.

(** ** The PDF adapter *)

(** The candidate loop: it answers [False] exactly when no candidate
    exists, and has done nothing then; otherwise a file is at [dst]
    afterwards; it enters no adapter. *)
Lemma take_candidate_result dst candidates w :
  ∃ ok f2 evs,
    take_candidate dst candidates w = (inr ok, mkWorld f2 (log w ++ evs)) ∧
    forallb (λ ev, negb (is_Enter ev)) evs = true ∧
    (ok = false ↔ Forall (λ c, fs w !! c = None) candidates) ∧
    (ok = false → f2 = fs w ∧ evs = []) ∧
    (ok = true → is_Some (f2 !! dst)).
Proof.
  induction candidates as [|c cs IH]; simpl.
  - exists false, (fs w), []. rewrite app_nil_r. destruct w.
    split; [done|]. split; [done|]. split; [by split|done].
  - rewrite bind_unfold, path_exists_unfold.
    destruct (fs w !! c) as [data|] eqn:Ec.
    + rewrite bool_decide_eq_true_2 by (by eexists).
      rewrite bind_unfold.
      case_bool_decide as Hne.
      * rewrite (path_rename_Some _ _ _ data) by exact Ec.
        exists true, (<[dst := data]> (delete c (fs w))), [Rename c dst].
        split; [done|]. split; [done|]. split; [|split; [done|]].
        -- split; [done|]. intros [H1 _]%Forall_cons. congruence.
        -- intros _. rewrite lookup_insert_eq. by eexists.
      * assert (c = dst) as -> by (destruct (decide (c = dst)); [done|by destruct Hne]).
        exists true, (fs w), []. rewrite app_nil_r. destruct w as [f l]; simpl in *.
        split; [done|]. split; [done|]. split; [|split; [done|]].
        -- split; [done|]. intros [H1 _]%Forall_cons. congruence.
        -- intros _. by eexists.
    + rewrite bool_decide_eq_false_2 by (by intros [? ?]).
      destruct IH as (ok & f2 & evs & -> & Hev & Hok & Hsame & Hdst).
      exists ok, f2, evs.
      split; [done|]. split; [done|]. split; [|done]. split.
      * intros H. apply Forall_cons. split; [done|]. by apply Hok.
      * intros [_ H]%Forall_cons. by apply Hok.
Qed.

Lemma convert_pdf_with_poppler_result env src dst target w :
  convert_pdf_with_poppler env src dst target w =
    match run_program env (pdftoppm_argv src dst target) 60 (fs w) with
    | NotInstalled => (inr false, after_poppler src dst target w (fs w))
    | TimedOut f' => (inl (TimeoutExpired "pdftoppm"), after_poppler src dst target w f')
    | Undecodable _ msg f' =>
        (inl (UnicodeDecodeError msg), after_poppler src dst target w f')
    | CallFailed msg f' => (inl (LibraryError msg), after_poppler src dst target w f')
    | Completed rc err f' =>
        if bool_decide (rc ≠ 0) then (inr false, after_poppler src dst target w f')
        else take_candidate dst (poppler_candidates dst target)
               (after_poppler src dst target w f')
    end.
Proof.
  unfold convert_pdf_with_poppler, after_poppler.
  rewrite bind_unfold, emit_unfold. unfold try_except. rewrite bind_unfold.
  destruct (run_program env _ 60 (fs w)) as [|f'|rc msg f'|msg f'|rc err f'] eqn:E.
  - rewrite subprocess_run_not_installed by exact E. cbn. by rewrite <- app_assoc.
  - rewrite (subprocess_run_timed_out _ _ _ _ f') by exact E. cbn. by rewrite <- app_assoc.
  - rewrite (subprocess_run_undecodable _ _ _ _ rc msg f') by exact E. cbn.
    by rewrite <- app_assoc.
  - rewrite (subprocess_run_call_failed _ _ _ _ msg f') by exact E. cbn.
    by rewrite <- app_assoc.
  - rewrite (subprocess_run_completed _ _ _ _ rc err f') by exact E. cbn [fst snd fs log].
    rewrite <- app_assoc. cbn [app].
    case_bool_decide; [done|].
    destruct (take_candidate_result dst (poppler_candidates dst target)
                (mkWorld f' (log w ++ [Enter "convert_pdf_with_poppler";
                                       Subprocess (pdftoppm_argv src dst target)])))
      as (ok & f2 & evs & -> & _).
    reflexivity.
Qed.

(** The Secondary Renderer never raises.  When it answers [True] the file at
    [dst] is what the encoder of the image library produced and no other
    file changed; when it answers [False] no file changed.  Its first event
    is its own entry. *)
Lemma convert_pdf_with_pdfium_result env src dst target w :
  ∃ ok f2 evs,
    convert_pdf_with_pdfium env src dst target w =
      (inr ok, mkWorld f2 (log w ++ Enter "convert_pdf_with_pdfium" :: evs)) ∧
    (if ok : bool
     then ∃ img fmt q data, Image_save env img fmt q = inr data ∧ f2 = <[dst := data]> (fs w)
     else f2 = fs w).
Proof.
  unfold convert_pdf_with_pdfium. rewrite bind_unfold, emit_unfold.
  destruct (HAS_PDFIUM env); cbn [negb].
  2:{ exists false, (fs w), []. by split. }
  munfold. destruct (PdfDocument env (fs w !! src)) as [msg|pdf].
  { exists false, (fs w), [PdfOpen (Path.str src)]. rewrite <- app_assoc. by split. }
  unfold pdfium_render_first. case_bool_decide as Hlen.
  { exists false, (fs w), [PdfOpen (Path.str src); PdfClose].
    munfold. rewrite <- !app_assoc. by split. }
  destruct pdf as [|page pages]; [by destruct Hlen|]. munfold.
  destruct (page_render env page 2) as [msg|img]; munfold.
  { exists false, (fs w), [PdfOpen (Path.str src); PdfRender 0; PdfClose].
    rewrite <- !app_assoc. by split. }
  unfold img_save. munfold.
  repeat case_bool_decide;
    try (match goal with
         | |- context [Image_save env ?i ?f ?q] =>
             destruct (Image_save env i f q) as [msg|data] eqn:Es; munfold;
             [ exists false, (fs w),
                 [PdfOpen (Path.str src); PdfRender 0; ImageSave dst f; PdfClose]
             | exists true, (<[dst := data]> (fs w)),
                 [PdfOpen (Path.str src); PdfRender 0; ImageSave dst f; PdfClose] ];
             rewrite <- !app_assoc; (split; [done|]); [done|by exists i, f, q, data]
         end).
  exists false, (fs w), [PdfOpen (Path.str src); PdfRender 0; PdfClose].
  cbn [fs log]. rewrite <- !app_assoc. by split.
Qed.

(** A document without pages: the renderer answers [False] as soon as the
    document is open; no page is rendered and no file changes. *)
Lemma convert_pdf_with_pdfium_empty env src dst target w :
  HAS_PDFIUM env = true →
  PdfDocument env (fs w !! src) = inr [] →
  convert_pdf_with_pdfium env src dst target w =
    (inr false,
     mkWorld (fs w)
       (log w ++ [Enter "convert_pdf_with_pdfium"; PdfOpen (Path.str src); PdfClose])).
Proof.
  intros Hp Hd. unfold convert_pdf_with_pdfium. rewrite bind_unfold, emit_unfold, Hp.
  munfold. rewrite Hd. unfold pdfium_render_first. munfold.
  by rewrite <- !app_assoc.
Qed.

(** ** The upload endpoint *)

(** [upload_file] never fails: it stores the file under the id and the
    extension of its name and answers with the category and the suggestions. *)
Lemma upload_file_result env fid fname content content_type w :
  let mime := upload_mime env fname content content_type in
  let category := classify_spec fname (Some mime) in
  upload_file env fid fname content content_type w =
    (inr (mkUploadResponse fid fname category mime
            (suggestions category (Path.suffix (Path.parse fname)))),
     mkWorld (<[UPLOAD_DIR // (fid ++ Path.suffix (Path.parse fname)) := content]> (fs w))
             (log w)).
Proof.
  intros mime category. unfold upload_file.
  rewrite bind_unfold. unfold write_file at 1. rewrite bind_unfold. cbn [get_fs put_fs].
  rewrite bind_unfold, detect_category_spec. unfold lift, mret, M_ret.
  assert (∀ c x, suggestions c (Str.lstrip_dot x) = suggestions c x) as Hs
    by (intros c x; unfold suggestions; by rewrite normalize_ext_lstrip).
  rewrite Hs. subst category mime. unfold upload_mime.
  repeat f_equal;
    destruct (HAS_FILETYPE env); try destruct (filetype_guess env (Some content));
    simpl; repeat case_match; reflexivity.
Qed.

(** * The properties of the specification *)

(** C10.  Extension normalization (lower-case, strip the leading dots, apply
    the alias table jpeg→jpg, tif→tiff) is idempotent: normalizing a
    normalized extension returns it unchanged, for every string. *)
Theorem normalize_ext_idempotent (x : string) :
  normalize_ext x = apply_alias (Str.lstrip_dot (Str.lower x)) ∧
  normalize_ext (normalize_ext x) = normalize_ext x.
Proof. split; [reflexivity | apply normalize_ext_idem]. Qed.

(** C4.  [detect_category] never raises and returns what the specification of
    the classifier says: the category of the normalized extension when the
    extension table has it, whatever the hint; otherwise, with a hint, the
    category of the prefix image/, audio/ or video/, else that of the exact
    mime in the mime table; otherwise unknown.  "report.PDF" without a hint
    is a pdf, in any case of the letters, and "data" with the hint text/csv
    is a spreadsheet. *)
Theorem detect_category_classifies :
  (∀ filename mime, detect_category filename mime = inr (classify_spec filename mime)) ∧
  detect_category "report.PDF" None = inr "pdf" ∧
  detect_category "report.pdf" None = inr "pdf" ∧
  detect_category "REPORT.Pdf" None = inr "pdf" ∧
  detect_category "data" (Some "text/csv") = inr "spreadsheet".
Proof. split; [exact detect_category_spec|]. repeat split; by vm_compute. Qed.

(** C6.  The suggestions are the catalog row of the category (empty for
    unknown and for every category outside the catalog) without the entries
    whose normalized form is the normalized input extension, in the order of
    the catalog; so the normalized input extension is never suggested.
    [upload_file] answers with these suggestions for the extension of the
    file name. *)
Theorem suggestions_exclude_input_format (category ext : string) :
  (suggestions category ext =
     filter (λ s, normalize_ext s ≠ normalize_ext ext) (catalog_row category)) ∧
  (catalog_row "unknown" = []) ∧
  (category ∉ catalog_categories → suggestions category ext = []) ∧
  (∀ s, s ∈ suggestions category ext ↔
        s ∈ catalog_row category ∧ normalize_ext s ≠ normalize_ext ext) ∧
  sublist (suggestions category ext) (catalog_row category) ∧
  (normalize_ext ext ∉ suggestions category ext) ∧
  (∀ env fid fname content content_type w,
     ∃ r w', upload_file env fid fname content content_type w = (inr r, w') ∧
             up_suggestions r =
               suggestions (up_category r) (Path.suffix (Path.parse fname))).
Proof.
  split; [reflexivity|]. split; [reflexivity|]. split; [|split; [|split; [|split]]].
  - intros Hc. unfold suggestions. fold (catalog_row category).
    by rewrite catalog_row_outside.
  - intros s. unfold suggestions. fold (catalog_row category).
    by rewrite list_elem_of_filter, (and_comm (s ∈ _)).
  - apply sublist_filter.
  - unfold suggestions. intros [Hne _]%list_elem_of_filter.
    apply Hne. apply normalize_ext_idem.
  - intros env fid fname content content_type w. eexists _, _.
    split; [apply upload_file_result|reflexivity].
Qed.

Lemma suggestions_exclude_input_format_witness :
  ("spam" ∉ catalog_categories) ∧ (suggestions "spam" "png" = []) ∧
  (suggestions "image" ".JPEG" = ["png"; "webp"; "pdf"; "tiff"; "tif"; "bmp"; "gif"; "ico"]).
Proof.
  assert ("spam" ∉ catalog_categories) as Hspam
    by (refine (bool_decide_unpack _ _); vm_compute; exact I).
  split; [exact Hspam|]. split; [|by vm_compute].
  by apply (suggestions_exclude_input_format "spam" "png").
Defined.

(** A valid target makes the category one of the catalog. *)
Lemma valid_target_category category t :
  is_valid_target category t = true → category ∈ catalog_categories.
Proof.
  rewrite is_valid_target_spec. intros Ht.
  destruct (decide (category ∈ catalog_categories)) as [|Hc]; [done|].
  rewrite (catalog_row_outside _ Hc) in Ht. by apply elem_of_nil in Ht.
Qed.

(** C5.  A target is valid for a category exactly when its normalized form
    is a literal member of the catalog row of the category (which is empty
    for unknown), whether or not it is the extension of the input file.
    [convert_file] validates so: once the upload is found, the request is
    rejected with status 400 and a message that names the target and the
    category exactly when the normalized target is not in the row, and then
    the world is unchanged, so no adapter was entered and no program was run;
    when it is in the row the request goes to the dispatch with the
    normalized target and is never answered with status 400. *)
Theorem target_validation_by_catalog_row (env : Env) (req : ConvertRequest)
    (w : World) (category : string) :
  (∀ c t, is_valid_target c t = true ↔ normalize_ext t ∈ catalog_row c) ∧
  (∀ t, is_valid_target "unknown" t = false) ∧
  (is_Some (fs w !! input_path_of req) →
   detect_category (filename req) None = inr category →
   is_valid_target category (target_format req) = false →
   convert_file env req w =
     (inl (HTTPException 400
             ("Target ." ++ target_raw_of req ++ " is not supported for " ++ category)),
      w)) ∧
  (is_Some (fs w !! input_path_of req) →
   detect_category (filename req) None = inr category →
   (normalize_ext (target_format req) ∉ catalog_row category →
    convert_file env req w =
      (inl (HTTPException 400
              ("Target ." ++ target_raw_of req ++ " is not supported for " ++ category)),
       w)) ∧
   (normalize_ext (target_format req) ∈ catalog_row category →
    convert_file env req w =
      match dispatch env category (input_path_of req) (output_path_of req)
              (normalize_ext (target_format req)) w with
      | (inl e, w') =>
          (inl (HTTPException 500 ("Conversion failed: " ++ exn_str e)), w')
      | (inr _, w') =>
          if bool_decide (is_Some (fs w' !! output_path_of req)) then
            (inr (mkFileResponse (Path.str (output_path_of req)) (output_filename_of req)
                    "application/octet-stream"), w')
          else (inl (HTTPException 500 "Conversion produced no output file"), w')
      end) ∧
   ((∃ detail w', convert_file env req w = (inl (HTTPException 400 detail), w')) ↔
    normalize_ext (target_format req) ∉ catalog_row category)).
Proof.
  split; [exact is_valid_target_spec|]. split; [|split; [apply convert_file_invalid|]].
  { intros t. apply not_true_is_false. rewrite is_valid_target_spec.
    change (catalog_row "unknown") with (@nil string). apply not_elem_of_nil. }
  intros E Hd.
  assert (normalize_ext (target_format req) ∉ catalog_row category →
          convert_file env req w =
            (inl (HTTPException 400
                    ("Target ." ++ target_raw_of req ++ " is not supported for " ++ category)),
             w)) as Hreject.
  { intros Hnot. apply convert_file_invalid; [done..|].
    apply not_true_is_false. by rewrite is_valid_target_spec. }
  assert (normalize_ext (target_format req) ∈ catalog_row category →
          convert_file env req w =
            match dispatch env category (input_path_of req) (output_path_of req)
                    (normalize_ext (target_format req)) w with
            | (inl e, w') =>
                (inl (HTTPException 500 ("Conversion failed: " ++ exn_str e)), w')
            | (inr _, w') =>
                if bool_decide (is_Some (fs w' !! output_path_of req)) then
                  (inr (mkFileResponse (Path.str (output_path_of req))
                          (output_filename_of req) "application/octet-stream"), w')
                else (inl (HTTPException 500 "Conversion produced no output file"), w')
            end) as Haccept.
  { intros Hin. apply is_valid_target_spec in Hin as Hv.
    rewrite (convert_file_valid _ _ _ _ E Hd Hv).
    unfold target_raw_of. rewrite normalize_ext_clean.
    pose proof (no_http_dispatch env _ (input_path_of req) (output_path_of req)
                  (normalize_ext (target_format req)) (valid_target_category _ _ Hv)) as Hno.
    destruct (dispatch _ _ _ _ _ w) as [[e|[]] w'] eqn:Ed; [|done].
    by rewrite (Hno _ _ _ Ed). }
  split; [exact Hreject|]. split; [exact Haccept|]. split.
  - intros (detail & w' & Hrun).
    intros Hin. rewrite (Haccept Hin) in Hrun.
    destruct (dispatch _ _ _ _ _ w) as [[e|[]] w1]; [done|].
    by destruct (bool_decide _).
  - intros Hnot. eexists _, _. by apply Hreject.
Qed.

(** The request of the specification, target bmp for the audio file
    [song.mp3], is rejected; the target wav for the same file is not. *)
Lemma target_validation_by_catalog_row_witness :
  let env := sample_env true true nothing_installed in
  let w := one_file (UPLOAD_DIR // "a1.mp3") "ID3" in
  let wav := mkConvertRequest "a1" "song.mp3" ".WAV" in
  is_Some (fs w !! input_path_of bmp_of_audio) ∧
  detect_category (filename bmp_of_audio) None = inr "audio" ∧
  (normalize_ext (target_format bmp_of_audio) ∉ catalog_row "audio") ∧
  convert_file env bmp_of_audio w =
    (inl (HTTPException 400 "Target .bmp is not supported for audio"), w) ∧
  (normalize_ext (target_format wav) ∈ catalog_row "audio") ∧
  ¬ (∃ detail w', convert_file env wav w = (inl (HTTPException 400 detail), w')).
Proof.
  intros env w wav.
  assert (is_Some (fs w !! input_path_of bmp_of_audio)) as Hup
    by (vm_compute; by eexists).
  assert (detect_category (filename bmp_of_audio) None = inr "audio") as Hcat
    by (by vm_compute).
  assert (normalize_ext (target_format bmp_of_audio) ∉ catalog_row "audio") as Hbad
    by (refine (bool_decide_unpack _ _); vm_compute; exact I).
  assert (normalize_ext (target_format wav) ∈ catalog_row "audio") as Hgood
    by (refine (bool_decide_unpack _ _); vm_compute; exact I).
  split; [exact Hup|]. split; [exact Hcat|]. split; [exact Hbad|].
  destruct (target_validation_by_catalog_row env bmp_of_audio w "audio")
    as (_ & _ & _ & Hbmp).
  destruct (Hbmp Hup Hcat) as (Hrej & _ & _).
  split; [exact (Hrej Hbad)|]. split; [exact Hgood|].
  destruct (target_validation_by_catalog_row env wav w "audio") as (_ & _ & _ & Hwav).
  destruct (Hwav Hup Hcat) as (_ & _ & Hiff).
  intros H400. by apply Hiff in H400.
Defined.

(** C8.  [convert_file] classifies by the file name alone.  For a file name
    whose extension is not in the extension table the category is unknown,
    and every conversion of the uploaded file is rejected at the validation
    of the target, whatever the target: also when the upload was classified
    by its mime type and the target was among the suggestions. *)
Theorem convert_rejects_upload_classified_by_mime (env : Env) (fid fname t : string) :
  dict_mem EXT_TO_CATEGORY (file_ext fname) = false →
  let req := mkConvertRequest fid fname t in
  let rejected :=
    HTTPException 400
      ("Target ." ++ Str.lstrip_dot (Str.lower t) ++ " is not supported for unknown") in
  detect_category fname None = inr "unknown" ∧
  (∀ w, is_Some (fs w !! input_path_of req) → convert_file env req w = (inl rejected, w)) ∧
  (∀ content content_type w,
     ∃ r w1, upload_file env fid fname content content_type w = (inr r, w1) ∧
             convert_file env req w1 = (inl rejected, w1)).
Proof.
  intros Hext req rejected.
  pose proof (detect_category_unlisted _ Hext) as Hc.
  assert (is_valid_target "unknown" t = false) as Hv.
  { apply not_true_is_false. rewrite is_valid_target_spec.
    change (catalog_row "unknown") with (@nil string). apply not_elem_of_nil. }
  split; [exact Hc|]. split.
  - intros w E. by apply (convert_file_invalid env req w "unknown").
  - intros content content_type w. eexists _, _.
    split; [apply upload_file_result|].
    apply (convert_file_invalid env req _ "unknown"); [|done..].
    unfold input_path_of. cbn [fs file_id filename req]. rewrite lookup_insert_eq. by eexists.
Qed.

Lemma convert_rejects_upload_classified_by_mime_witness :
  dict_mem EXT_TO_CATEGORY (file_ext "data") = false ∧
  ∃ r w1,
    upload_file (sample_env true true nothing_installed) "u1" "data" "a,b"
      (Some "text/csv") (mkWorld ∅ []) = (inr r, w1) ∧
    up_category r = "spreadsheet" ∧
    "csv" ∈ up_suggestions r ∧
    convert_file (sample_env true true nothing_installed)
      (mkConvertRequest "u1" "data" "csv") w1 =
      (inl (HTTPException 400 "Target .csv is not supported for unknown"), w1).
Proof.
  assert (dict_mem EXT_TO_CATEGORY (file_ext "data") = false) as Hext by (by vm_compute).
  split; [exact Hext|].
  destruct (convert_rejects_upload_classified_by_mime
              (sample_env true true nothing_installed) "u1" "data" "csv" Hext)
    as (_ & _ & Hup).
  destruct (Hup "a,b" (Some "text/csv") (mkWorld ∅ [])) as (r & w1 & Hr & Hconv).
  exists r, w1. split; [exact Hr|].
  rewrite upload_file_result in Hr. injection Hr as <- <-.
  split; [by vm_compute|]. split; [|exact Hconv].
  refine (bool_decide_unpack _ _). vm_compute. exact I.
Defined.

(** C9.  A category outside the seven of the catalog has no allowed target,
    so a request of such a category is rejected at the validation of the
    target, before the dispatch; the branch of the dispatch that answers
    "Unsupported category" (which a category outside the catalog would take)
    is therefore never the outcome of [convert_file]. *)
Theorem unsupported_category_branch_unreachable (env : Env) (req : ConvertRequest)
    (w : World) :
  (∀ category, category ∉ catalog_categories → allowed_targets category = ∅) ∧
  (∀ category input_path output_path target w0,
     category ∉ catalog_categories →
     dispatch env category input_path output_path target w0 =
       (inl (HTTPException 400 ("Unsupported category: " ++ category)), w0)) ∧
  (∀ category,
     is_Some (fs w !! input_path_of req) →
     detect_category (filename req) None = inr category →
     category ∉ catalog_categories →
     convert_file env req w =
       (inl (HTTPException 400
               ("Target ." ++ target_raw_of req ++ " is not supported for " ++ category)),
        w)) ∧
  (∀ category,
     (convert_file env req w).1 ≠
       inl (HTTPException 400 ("Unsupported category: " ++ category))).
Proof.
  split; [|split; [|split]].
  - intros category Hc. unfold allowed_targets. fold (catalog_row category).
    by rewrite catalog_row_outside.
  - intros category input_path output_path target w0 Hc. unfold dispatch.
    unfold catalog_categories in Hc. rewrite ?elem_of_cons, ?elem_of_nil in Hc.
    repeat (case_bool_decide;
            [exfalso; rewrite ?elem_of_cons, ?elem_of_nil in *; tauto|]).
    reflexivity.
  - intros category E Hd Hc. apply convert_file_invalid; [done..|].
    apply not_true_is_false. by intros ?%valid_target_category.
  - intros c.
    destruct (fs w !! input_path_of req) as [data|] eqn:E.
    2:{ by rewrite convert_file_not_found. }
    assert (is_Some (fs w !! input_path_of req)) as E' by (by eexists).
    pose proof (detect_category_spec (filename req) None) as Hd.
    destruct (is_valid_target (classify_spec (filename req) None) (target_format req)) eqn:Hv.
    2:{ by rewrite (convert_file_invalid _ _ _ _ E' Hd Hv). }
    rewrite (convert_file_valid _ _ _ _ E' Hd Hv).
    pose proof (no_http_dispatch env _ (input_path_of req) (output_path_of req)
                  (normalize_ext (target_raw_of req)) (valid_target_category _ _ Hv)) as Hno.
    destruct (dispatch _ _ _ _ _ w) as [[e|[]] w'] eqn:Ed.
    + by rewrite (Hno _ _ _ Ed).
    + by destruct (bool_decide _).
Qed.

Lemma unsupported_category_branch_unreachable_witness :
  let env := sample_env true true nothing_installed in
  let req := mkConvertRequest "u2" "archive.zip" "pdf" in
  let w := one_file (UPLOAD_DIR // "u2.zip") "PK" in
  ("unknown" ∉ catalog_categories) ∧
  is_Some (fs w !! input_path_of req) ∧
  detect_category (filename req) None = inr "unknown" ∧
  (allowed_targets "unknown" = ∅) ∧
  convert_file env req w =
    (inl (HTTPException 400 "Target .pdf is not supported for unknown"), w).
Proof.
  intros env req w.
  assert ("unknown" ∉ catalog_categories) as Hc
    by (refine (bool_decide_unpack _ _); vm_compute; exact I).
  assert (is_Some (fs w !! input_path_of req)) as Hup by (vm_compute; by eexists).
  assert (detect_category (filename req) None = inr "unknown") as Hcat
    by (by vm_compute).
  destruct (unsupported_category_branch_unreachable env req w)
    as (Hempty & _ & Hrej & _).
  split; [exact Hc|]. split; [exact Hup|]. split; [exact Hcat|].
  split; [exact (Hempty "unknown" Hc)|].
  exact (Hrej "unknown" Hup Hcat Hc).
Defined.

(** C7.  After LibreOffice returned 0, [convert_office] takes as the path the
    tool wrote to the parent directory of the destination joined with the
    stem of the source and the extension of the target.  When a file is
    there and the path is not the destination, it is renamed to the
    destination; when the two paths are the same, or no file is there,
    nothing is renamed. *)
Theorem office_output_moved_to_destination (env : Env) (src dst : path)
    (target : string) (w : World) (err : string) (f' : gmap path string) :
  run_program env (libreoffice_argv src dst target) 120 (fs w) = Completed 0 err f' →
  let expected := Path.parent dst // (Path.stem src ++ "." ++ target) in
  let ran := [Enter "convert_office"; Subprocess (libreoffice_argv src dst target)] in
  ∃ w',
    convert_office env src dst target w = (inr (), w') ∧
    (∀ data, f' !! expected = Some data → expected ≠ dst →
       fs w' = <[dst := data]> (delete expected f') ∧
       fs w' !! dst = Some data ∧ fs w' !! expected = None ∧
       log w' = (log w ++ ran ++ [Rename expected dst])%list) ∧
    (expected = dst → fs w' = f' ∧ log w' = (log w ++ ran)%list) ∧
    (f' !! expected = None → fs w' = f' ∧ log w' = (log w ++ ran)%list).
Proof.
  intros E expected ran.
  rewrite (convert_office_completed _ _ _ _ _ err f' E).
  fold (office_expected src dst target). change (office_expected src dst target) with expected.
  destruct (f' !! expected) as [c|] eqn:Ec.
  - destruct (decide (expected ≠ dst)) as [Hne|Heq].
    + eexists. split; [reflexivity|]. cbn [fs log]. split; [|split; [done|done]].
      intros data [= <-] _. split; [done|].
      rewrite lookup_insert_eq, lookup_insert_ne, lookup_delete_eq by done.
      by rewrite <- app_assoc.
    + eexists. split; [reflexivity|]. cbn [fs log]. split; [|split; [done|done]].
      intros data _ Hne. by destruct Heq.
  - eexists. split; [reflexivity|]. cbn [fs log]. by split; [|split].
Qed.

(** The example of the specification: [notes.docx] to pdf, LibreOffice
    writes [notes.pdf] into the output directory and the destination is
    [a1_notes.pdf]. *)
Lemma office_output_moved_to_destination_witness :
  let env := sample_env true true libreoffice_writes_notes in
  let src := UPLOAD_DIR // "notes.docx" in
  let dst := OUTPUT_DIR // "a1_notes.pdf" in
  let w := one_file src "docx" in
  let f' := <[OUTPUT_DIR // "notes.pdf" := "%PDF-1.7 notes"]> (fs w) in
  run_program env (libreoffice_argv src dst "pdf") 120 (fs w) = Completed 0 "" f' ∧
  f' !! (OUTPUT_DIR // "notes.pdf") = Some "%PDF-1.7 notes" ∧
  OUTPUT_DIR // "notes.pdf" ≠ dst ∧
  ∃ w',
    convert_office env src dst "pdf" w = (inr (), w') ∧
    fs w' !! dst = Some "%PDF-1.7 notes" ∧
    fs w' !! (OUTPUT_DIR // "notes.pdf") = None.
Proof.
  intros env src dst w f'.
  assert (run_program env (libreoffice_argv src dst "pdf") 120 (fs w) = Completed 0 "" f')
    as Hrun by reflexivity.
  assert (f' !! (OUTPUT_DIR // "notes.pdf") = Some "%PDF-1.7 notes") as Hout
    by (by vm_compute).
  assert (OUTPUT_DIR // "notes.pdf" ≠ dst) as Hne by (by vm_compute).
  split; [exact Hrun|]. split; [exact Hout|]. split; [exact Hne|].
  destruct (office_output_moved_to_destination env src dst "pdf" w "" f' Hrun)
    as (w' & Hconv & Hmove & _).
  exists w'. split; [exact Hconv|].
  destruct (Hmove "%PDF-1.7 notes" Hout Hne) as (_ & Hdst & Hexp & _).
  split; [exact Hdst|exact Hexp].
Defined.

(** C3, as stated, fails: without pandas the adapter answers "pandas not
    installed" for the target xls, not the unsupported-target failure. *)
Lemma spreadsheet_xls_without_pandas :
  let r := convert_spreadsheet (sample_env false true nothing_installed)
             (UPLOAD_DIR // "s1.xlsx") (OUTPUT_DIR // "s1_book.xls") "xls"
             (one_file (UPLOAD_DIR // "s1.xlsx") "a") in
  r.1 = inl (RuntimeError "pandas not installed") ∧
  r.1 ≠ inl (RuntimeError "Unsupported spreadsheet target: xls").
Proof. split; [reflexivity|discriminate]. Qed.

(** C3, amended.  Without pandas, or when the source does not parse, the
    adapter fails with that error for every target.  Once the source is
    parsed: csv and xlsx are serialized in-process, pdf is handed to
    [convert_office], and every other target fails with "Unsupported
    spreadsheet target", xls among them although the catalog row of
    spreadsheet lists it and the router accepts it. *)
Theorem spreadsheet_targets_dispatch (env : Env) (src dst : path) (target : string)
    (w : World) :
  (HAS_PANDAS env = false →
   convert_spreadsheet env src dst target w =
     (inl (RuntimeError "pandas not installed"),
      mkWorld (fs w) (log w ++ [Enter "convert_spreadsheet"]))) ∧
  (∀ msg, HAS_PANDAS env = true → read_source env src w = inl msg →
   convert_spreadsheet env src dst target w = (inl (LibraryError msg), after_read src w)) ∧
  (∀ df, HAS_PANDAS env = true → read_source env src w = inr df →
   (target = "csv" →
    convert_spreadsheet env src dst target w =
      serialized (ToCsv dst) (to_csv env df) dst (after_read src w)) ∧
   (target = "xlsx" →
    convert_spreadsheet env src dst target w =
      serialized (ToExcel dst) (to_excel env df) dst (after_read src w)) ∧
   (target = "pdf" →
    convert_spreadsheet env src dst target w =
      convert_office env src dst "pdf" (after_read src w)) ∧
   (target ∉ ["csv"; "xlsx"; "pdf"] →
    convert_spreadsheet env src dst target w =
      (inl (RuntimeError ("Unsupported spreadsheet target: " ++ target)),
       after_read src w))) ∧
  ("xls" ∈ catalog_row "spreadsheet") ∧
  (is_valid_target "spreadsheet" "xls" = true) ∧
  ("xls" ∉ ["csv"; "xlsx"; "pdf"]).
Proof.
  split; [apply convert_spreadsheet_no_pandas|].
  split; [intros msg; apply convert_spreadsheet_unparsed|].
  split.
  - intros df Hp Hr. rewrite (convert_spreadsheet_parsed _ _ _ _ _ df Hp Hr).
    split; [by intros ->|]. split; [by intros ->|]. split; [by intros ->|].
    intros Ht. rewrite ?elem_of_cons, ?elem_of_nil in Ht.
    repeat (case_bool_decide; [exfalso; tauto|]). reflexivity.
  - split; [|split]; refine (bool_decide_unpack _ _); vm_compute; exact I.
Qed.

Lemma spreadsheet_targets_dispatch_witness :
  let env := sample_env true true nothing_installed in
  let src := UPLOAD_DIR // "s1.xlsx" in
  let dst := OUTPUT_DIR // "s1_book.xls" in
  HAS_PANDAS env = true ∧
  read_source env src (one_file src "a") = inr [["a"]] ∧
  ("xls" ∉ ["csv"; "xlsx"; "pdf"]) ∧
  convert_spreadsheet env src dst "xls" (one_file src "a") =
    (inl (RuntimeError "Unsupported spreadsheet target: xls"),
     mkWorld {[ src := "a" ]} [Enter "convert_spreadsheet"; ReadExcel src]).
Proof.
  intros env src dst.
  pose proof (spreadsheet_targets_dispatch env src dst "xls" (one_file src "a"))
    as (_ & _ & Hparsed & _ & _ & Hxls).
  split; [reflexivity|]. split; [reflexivity|]. split; [exact Hxls|].
  destruct (Hparsed [["a"]] eq_refl eq_refl) as (_ & _ & _ & Hother).
  exact (Hother Hxls).
Defined.

(** ** The fallback chain *)

(** [convert_pdf] for png and jpg, by the outcome of the Primary Renderer. *)
Lemma convert_pdf_image env src dst target w :
  target ∈ ["png"; "jpg"] →
  let w0 := mkWorld (fs w) (log w ++ [Enter "convert_pdf"]) in
  convert_pdf env src dst target w =
    match convert_pdf_with_poppler env src dst target w0 with
    | (inl e, w1) => (inl e, w1)
    | (inr true, w1) => (inr (), w1)
    | (inr false, w1) =>
        match convert_pdf_with_pdfium env src dst target w1 with
        | (inl e, w2) => (inl e, w2)
        | (inr true, w2) => (inr (), w2)
        | (inr false, w2) => (inl (RuntimeError no_backend_message), w2)
        end
    end.
Proof.
  intros Ht w0. unfold convert_pdf. rewrite bind_unfold, emit_unfold.
  rewrite (bool_decide_eq_true_2 _ Ht). rewrite bind_unfold. fold w0.
  destruct (convert_pdf_with_poppler env src dst target w0) as [[e|[]] w1]; [done..|].
  rewrite bind_unfold.
  by destruct (convert_pdf_with_pdfium env src dst target w1) as [[e|[]] w2].
Qed.

Lemma not_Enter_not_elem fn evs :
  forallb (λ ev, negb (is_Enter ev)) evs = true → Enter fn ∉ evs.
Proof.
  rewrite forallb_forall. intros H Hin. apply list_elem_of_In in Hin.
  by specialize (H _ Hin).
Qed.

(** C2 names a defect of the code.  For the targets png and jpg the Primary
    Renderer (pdftoppm) runs first.  The Secondary Renderer (pypdfium2) is
    entered exactly when pdftoppm is not installed, or its call returns a
    non-zero exit code, or returns and leaves no candidate file; then the
    outcome is that of the secondary: when it succeeds the conversion
    succeeds and the file at the destination is the one its encoder produced;
    when it fails too the conversion fails with one message that names
    poppler, pdftoppm and pypdfium2.  But the call captures the output of
    pdftoppm as text: when pdftoppm has exited, with a non-zero code as well,
    and what it printed cannot be decoded, the call raises
    [UnicodeDecodeError]; the primary handles [FileNotFoundError] only, so
    the secondary is not entered and the conversion fails with that
    exception.  (A timeout and any other exception of the call leave
    [convert_pdf] in the same way.) *)
Theorem pdf_image_fallback_chain (env : Env) (src dst : path) (target : string)
    (w : World) :
  target ∈ ["png"; "jpg"] →
  ∃ r f2 evs,
    convert_pdf env src dst target w =
      (r, mkWorld f2 (log w ++ primary_events src dst target ++ evs)) ∧
    (Enter "convert_pdf_with_pdfium" ∈ evs ↔ primary_fell_through env src dst target w) ∧
    (primary_fell_through env src dst target w →
     ∃ ok,
       convert_pdf_with_pdfium env src dst target
         (mkWorld (files_after_primary env src dst target w)
                  (log w ++ primary_events src dst target)) =
         (inr ok, mkWorld f2 (log w ++ primary_events src dst target ++ evs)) ∧
       r = (if ok : bool then inr () else inl (RuntimeError no_backend_message)) ∧
       (ok = true →
        ∃ img fmt q data,
          Image_save env img fmt q = inr data ∧
          f2 = <[dst := data]> (files_after_primary env src dst target w))) ∧
    (∀ rc msg f',
       run_program env (pdftoppm_argv src dst target) 60 (fs w) = Undecodable rc msg f' →
       r = inl (UnicodeDecodeError msg) ∧ f2 = f' ∧ evs = []) ∧
    (∀ f', run_program env (pdftoppm_argv src dst target) 60 (fs w) = TimedOut f' →
           r = inl (TimeoutExpired "pdftoppm") ∧ evs = []) ∧
    (∀ msg f', run_program env (pdftoppm_argv src dst target) 60 (fs w) = CallFailed msg f' →
               r = inl (LibraryError msg) ∧ evs = []) ∧
    Str.contains no_backend_message "poppler" = true ∧
    Str.contains no_backend_message "pdftoppm" = true ∧
    Str.contains no_backend_message "pypdfium2" = true.
Proof.
  intros Ht. rewrite (convert_pdf_image _ _ _ _ _ Ht).
  rewrite convert_pdf_with_poppler_result.
  unfold primary_fell_through, files_after_primary, after_poppler. cbn [fs log].
  assert (∀ l : list event,
            ((l ++ [Enter "convert_pdf"]) ++
             [Enter "convert_pdf_with_poppler"; Subprocess (pdftoppm_argv src dst target)])
            = l ++ primary_events src dst target)%list as Hlog
    by (intros l; by rewrite <- app_assoc).
  rewrite Hlog.
  (* the secondary renderer, run after the primary left the files f1 *)
  assert (∀ f1,
    ∃ r f2 evs,
      match convert_pdf_with_pdfium env src dst target
              (mkWorld f1 (log w ++ primary_events src dst target)) with
      | (inl e, w2) => (inl e, w2)
      | (inr true, w2) => (inr (), w2)
      | (inr false, w2) => (inl (RuntimeError no_backend_message), w2)
      end = (r, mkWorld f2 (log w ++ primary_events src dst target ++ evs)) ∧
      Enter "convert_pdf_with_pdfium" ∈ evs ∧
      ∃ ok,
        convert_pdf_with_pdfium env src dst target
          (mkWorld f1 (log w ++ primary_events src dst target)) =
          (inr ok, mkWorld f2 (log w ++ primary_events src dst target ++ evs)) ∧
        r = (if ok : bool then inr () else inl (RuntimeError no_backend_message)) ∧
        (ok = true →
         ∃ img fmt q data, Image_save env img fmt q = inr data ∧ f2 = <[dst := data]> f1))
    as Hsecond.
  { intros f1.
    destruct (convert_pdf_with_pdfium_result env src dst target
                (mkWorld f1 (log w ++ primary_events src dst target)))
      as (ok & f2 & evs & Hrun & Hfs).
    cbn [fs log] in Hrun, Hfs. rewrite <- app_assoc in Hrun. rewrite Hrun.
    exists (if ok then inr () else inl (RuntimeError no_backend_message)), f2,
           (Enter "convert_pdf_with_pdfium" :: evs).
    split; [by destruct ok|]. split; [apply list_elem_of_here|].
    exists ok. split; [done|]. split; [done|].
    intros ->. exact Hfs. }
  assert (Str.contains no_backend_message "poppler" = true ∧
          Str.contains no_backend_message "pdftoppm" = true ∧
          Str.contains no_backend_message "pypdfium2" = true) as Hmsg
    by (repeat split; by vm_compute).
  (* the primary raised [e] and left the files [f']: nothing follows *)
  assert (∀ e f', ∃ r f2 evs,
            (@inl exn unit e, mkWorld f' (log w ++ primary_events src dst target)) =
              (r, mkWorld f2 (log w ++ primary_events src dst target ++ evs)) ∧
            r = inl e ∧ f2 = f' ∧ evs = []) as Hraised.
  { intros e f'. exists (inl e), f', []. by rewrite app_nil_r. }
  destruct (run_program env (pdftoppm_argv src dst target) 60 (fs w))
    as [|f'|rc msg f'|msg f'|rc err f'] eqn:E.
  - destruct (Hsecond (fs w)) as (r & f2 & evs & Hrun & Hin & Hok).
    exists r, f2, evs. by repeat split.
  - destruct (Hraised (TimeoutExpired "pdftoppm") f') as (r & f2 & evs & Hrun & -> & -> & ->).
    exists (inl (TimeoutExpired "pdftoppm")), f', [].
    split; [done|]. split; [split; [by intros ?%elem_of_nil|done]|].
    split; [done|]. split; [done|]. split; [by intros f'' [= <-]|].
    split; [done|exact Hmsg].
  - destruct (Hraised (UnicodeDecodeError msg) f') as (r & f2 & evs & Hrun & -> & -> & ->).
    exists (inl (UnicodeDecodeError msg)), f', [].
    split; [done|]. split; [split; [by intros ?%elem_of_nil|done]|].
    split; [done|]. split; [by intros rc' msg' f'' [= _ <- <-]|].
    split; [done|]. split; [done|exact Hmsg].
  - destruct (Hraised (LibraryError msg) f') as (r & f2 & evs & Hrun & -> & -> & ->).
    exists (inl (LibraryError msg)), f', [].
    split; [done|]. split; [split; [by intros ?%elem_of_nil|done]|].
    split; [done|]. split; [done|]. split; [done|].
    split; [by intros msg' f'' [= <- <-]|exact Hmsg].
  - case_bool_decide as Hrc.
    + destruct (Hsecond f') as (r & f2 & evs & Hrun & Hin & Hok).
      exists r, f2, evs. split; [done|]. split; [split; [by left|done]|].
      split; [done|]. by repeat split.
    + destruct (take_candidate_result dst (poppler_candidates dst target)
                  (mkWorld f' (log w ++ primary_events src dst target)))
        as (okc & fc & evc & Hcand & Hev & Hnone & Hsame & Hdst).
      cbn [fs log] in *. rewrite Hcand. destruct okc.
      * exists (inr ()), fc, evc. rewrite <- app_assoc.
        assert (¬ (rc ≠ 0 ∨ Forall (λ c, f' !! c = None) (poppler_candidates dst target)))
          as Hnot.
        { intros [?|Hall]; [done|]. by apply Hnone in Hall. }
        split; [done|]. split.
        { split; [|by intros ?]. intros Hin.
          by apply (not_Enter_not_elem "convert_pdf_with_pdfium") in Hev. }
        split; [by intros ?|]. by repeat split.
      * destruct (Hsame eq_refl) as [-> ->]. rewrite app_nil_r.
        destruct (Hsecond f') as (r & f2 & evs & Hrun & Hin & Hok).
        exists r, f2, evs. split; [done|].
        split; [split; [intros _; right; by apply Hnone|done]|].
        split; [done|]. by repeat split.
Qed.

(** The failing input: pdftoppm exits with code 1 after printing bytes that
    are no text; pypdfium2 is installed and would render the page.  The
    conversion fails with the exception of the call and the secondary is not
    entered.  With pdftoppm not installed the same request is served by the
    secondary. *)
Lemma pdf_image_fallback_chain_witness :
  let src := UPLOAD_DIR // "p1.pdf" in
  let dst := OUTPUT_DIR // "p1_doc.jpg" in
  let w := one_file src "page one" in
  ("jpg" ∈ ["png"; "jpg"]) ∧
  (convert_pdf (sample_env true true pdftoppm_prints_no_text) src dst "jpg" w =
     (inl (UnicodeDecodeError "invalid start byte"),
      mkWorld (fs w) (primary_events src dst "jpg"))) ∧
  (primary_fell_through (sample_env true true nothing_installed) src dst "jpg" w ∧
   ∃ f2 evs,
     convert_pdf (sample_env true true nothing_installed) src dst "jpg" w =
       (inr (), mkWorld f2 (log w ++ primary_events src dst "jpg" ++ evs)) ∧
     (Enter "convert_pdf_with_pdfium" ∈ evs) ∧
     f2 !! dst = Some "JPEG:page one").
Proof.
  intros src dst w.
  assert ("jpg" ∈ ["png"; "jpg"]) as Ht
    by (refine (bool_decide_unpack _ _); vm_compute; exact I).
  split; [exact Ht|]. split.
  - destruct (pdf_image_fallback_chain (sample_env true true pdftoppm_prints_no_text)
                src dst "jpg" w Ht)
      as (r & f2 & evs & Hrun & _ & _ & Hbad & _).
    destruct (Hbad 1 "invalid start byte" (fs w) eq_refl) as (-> & -> & ->).
    exact Hrun.
  - destruct (pdf_image_fallback_chain (sample_env true true nothing_installed)
                src dst "jpg" w Ht)
      as (r & f2 & evs & Hrun & Hiff & Hfall & _).
    split; [exact I|]. exists f2, evs.
    destruct (Hfall I) as (ok & Hsec & -> & Hdata).
    assert (ok = true) as ->.
    { vm_compute in Hsec. by injection Hsec as <-. }
    split; [exact Hrun|]. split; [by apply Hiff|].
    apply (f_equal (λ r : (exn + bool) * World, fs r.2 !! dst)) in Hsec.
    etrans; [symmetry; exact Hsec|]. by vm_compute.
Defined.

(** C1 names a defect of the code.  For a PDF without pages the Secondary
    Renderer stops before any page is rendered: it opens the document, raises
    "PDF has no pages", and closes it.  But its own handler turns that
    exception into the answer [False], so the conversion reports the message
    of a missing backend and never "PDF has no pages". *)
Theorem zero_page_pdf_reported_as_missing_backend (env : Env) (src dst : path)
    (w : World) :
  HAS_PDFIUM env = true →
  PdfDocument env (fs w !! src) = inr [] →
  let rendered := [Enter "convert_pdf_with_pdfium"; PdfOpen (Path.str src); PdfClose] in
  pdfium_render_first env [] dst "webp" w = (inl (RuntimeError "PDF has no pages"), w) ∧
  (∀ target,
     convert_pdf_with_pdfium env src dst target w =
       (inr false, mkWorld (fs w) (log w ++ rendered))) ∧
  convert_pdf env src dst "webp" w =
    (inl (RuntimeError "PDF to WEBP requires pypdfium2."),
     mkWorld (fs w) (log w ++ Enter "convert_pdf" :: rendered)) ∧
  (∀ target, target ∈ ["png"; "jpg"] →
     run_program env (pdftoppm_argv src dst target) 60 (fs w) = NotInstalled →
     convert_pdf env src dst target w =
       (inl (RuntimeError no_backend_message),
        mkWorld (fs w) (log w ++ primary_events src dst target ++ rendered))).
Proof.
  intros Hp Hd rendered. split; [reflexivity|]. split; [|split].
  - intros target. by apply convert_pdf_with_pdfium_empty.
  - unfold convert_pdf. rewrite bind_unfold, emit_unfold.
    rewrite bool_decide_eq_false_2
      by (rewrite ?elem_of_cons, ?elem_of_nil; intros [?|[?|[]]]; discriminate).
    rewrite bool_decide_eq_true_2 by done.
    rewrite bind_unfold, convert_pdf_with_pdfium_empty by done.
    cbn [fs log]. by rewrite <- app_assoc.
  - intros target Ht E. rewrite (convert_pdf_image _ _ _ _ _ Ht).
    rewrite convert_pdf_with_poppler_result. cbn [fs]. rewrite E.
    rewrite convert_pdf_with_pdfium_empty by done.
    unfold after_poppler. cbn [fs log]. by rewrite <- !app_assoc.
Qed.

(** An empty file is a PDF without pages in the sample environment. *)
Lemma zero_page_pdf_reported_as_missing_backend_witness :
  let env := sample_env true true nothing_installed in
  let src := UPLOAD_DIR // "p0.pdf" in
  let dst := OUTPUT_DIR // "p0_empty.webp" in
  HAS_PDFIUM env = true ∧
  PdfDocument env (fs (one_file src "") !! src) = inr [] ∧
  convert_pdf env src dst "webp" (one_file src "") =
    (inl (RuntimeError "PDF to WEBP requires pypdfium2."),
     mkWorld {[ src := "" ]}
       [Enter "convert_pdf"; Enter "convert_pdf_with_pdfium";
        PdfOpen "uploads/p0.pdf"; PdfClose]).
Proof.
  intros env src dst. split; [reflexivity|]. split; [reflexivity|].
  destruct (zero_page_pdf_reported_as_missing_backend env src dst (one_file src "")
              eq_refl eq_refl) as (_ & _ & Hwebp & _).
  exact Hwebp.
Defined.

(** * Further properties of the code *)

(** ** The router *)

(** X1.  An [HTTPException] raised by [convert_file] has one of four shapes:
    404 for a missing upload and 400 for a target that is not allowed, both
    with the world unchanged, 500 "Conversion failed: ..." around what an
    adapter raised, and 500 for an adapter that returned without leaving the
    output file.  The fifth [HTTPException] of the source, "Unsupported
    category", is not among them. *)
Theorem convert_file_failure_shape (env : Env) (req : ConvertRequest) (w w' : World)
    (status : Z) (detail : string) :
  convert_file env req w = (inl (HTTPException status detail), w') →
  (status = 404 ∧ detail = "Upload not found" ∧ w' = w) ∨
  (status = 400 ∧ w' = w ∧
   ∃ category,
     detect_category (filename req) None = inr category ∧
     detail = "Target ." ++ target_raw_of req ++ " is not supported for " ++ category) ∨
  (status = 500 ∧ ∃ msg, detail = "Conversion failed: " ++ msg) ∨
  (status = 500 ∧ detail = "Conversion produced no output file").
Proof.
  destruct (fs w !! input_path_of req) as [data|] eqn:E.
  2:{ rewrite convert_file_not_found by done. intros [= <- <- <-]. by left. }
  assert (is_Some (fs w !! input_path_of req)) as E' by (by eexists).
  pose proof (detect_category_spec (filename req) None) as Hd.
  destruct (is_valid_target (classify_spec (filename req) None) (target_format req)) eqn:Hv.
  2:{ rewrite (convert_file_invalid _ _ _ _ E' Hd Hv). intros [= <- <- <-].
      right; left. split; [done|]. split; [done|]. by eexists. }
  rewrite (convert_file_valid _ _ _ _ E' Hd Hv).
  pose proof (no_http_dispatch env _ (input_path_of req) (output_path_of req)
                (normalize_ext (target_raw_of req)) (valid_target_category _ _ Hv)) as Hno.
  destruct (dispatch _ _ _ _ _ w) as [[e1|[]] w1] eqn:Ed.
  - rewrite (Hno _ _ _ Ed). intros [= <- <- _]. right; right; left.
    split; [done|]. by eexists.
  - destruct (bool_decide _); [done|]. intros [= <- <- _]. by repeat right.
Qed.

Lemma convert_file_failure_shape_witness :
  let env := sample_env true true nothing_installed in
  let w := one_file (UPLOAD_DIR // "a1.mp3") "ID3" in
  convert_file env bmp_of_audio w =
    (inl (HTTPException 400 "Target .bmp is not supported for audio"), w) ∧
  ∃ category,
    detect_category (filename bmp_of_audio) None = inr category ∧
    "Target .bmp is not supported for audio" =
      "Target ." ++ target_raw_of bmp_of_audio ++ " is not supported for " ++ category.
Proof.
  intros env w.
  assert (convert_file env bmp_of_audio w =
          (inl (HTTPException 400 "Target .bmp is not supported for audio"), w)) as Hrun
    by (by vm_compute).
  split; [exact Hrun|].
  destruct (convert_file_failure_shape env bmp_of_audio w w _ _ Hrun)
    as [(H & _)|[(_ & _ & H)|[(H & _)|(H & _)]]];
    [discriminate H|exact H|discriminate H|discriminate H].
Defined.

(** X2.  When [convert_file] succeeds, the upload was there, the category is
    one of the catalog and the target was valid for it, the output file
    exists in the output directory, and the response names it:
    [stem(filename).target] under the id of the upload. *)
Theorem convert_file_success_postcondition (env : Env) (req : ConvertRequest)
    (w w' : World) (resp : FileResponse) :
  convert_file env req w = (inr resp, w') →
  is_Some (fs w !! input_path_of req) ∧
  is_Some (fs w' !! output_path_of req) ∧
  resp = mkFileResponse (Path.str (output_path_of req)) (output_filename_of req)
           "application/octet-stream" ∧
  ∃ category,
    detect_category (filename req) None = inr category ∧
    category ∈ catalog_categories ∧
    is_valid_target category (target_format req) = true.
Proof.
  destruct (fs w !! input_path_of req) as [data|] eqn:E.
  2:{ by rewrite convert_file_not_found. }
  assert (is_Some (fs w !! input_path_of req)) as E' by (by eexists).
  pose proof (detect_category_spec (filename req) None) as Hd.
  destruct (is_valid_target (classify_spec (filename req) None) (target_format req)) eqn:Hv.
  2:{ by rewrite (convert_file_invalid _ _ _ _ E' Hd Hv). }
  rewrite (convert_file_valid _ _ _ _ E' Hd Hv).
  destruct (dispatch _ _ _ _ _ w) as [[e1|[]] w1] eqn:Ed.
  { by destruct (is_HTTPException e1). }
  case_bool_decide as Hout; [|done]. intros [= <- <-].
  split; [done|]. split; [done|]. split; [done|].
  exists (classify_spec (filename req) None).
  split; [done|]. split; [by eapply valid_target_category|done].
Qed.

Lemma convert_file_success_postcondition_witness :
  let env := sample_env true true nothing_installed in
  let req := mkConvertRequest "s2" "table.csv" "XLSX" in
  let w := one_file (UPLOAD_DIR // "s2.csv") "a" in
  ∃ w' resp,
    convert_file env req w = (inr resp, w') ∧
    is_Some (fs w' !! (OUTPUT_DIR // "s2_table.xlsx")) ∧
    resp = mkFileResponse "outputs/s2_table.xlsx" "table.xlsx" "application/octet-stream".
Proof.
  intros env req w.
  destruct (convert_file env req w) as [r w'] eqn:Hrun.
  assert (∃ resp, r = inr resp) as [resp ->]
    by (apply (f_equal fst) in Hrun; vm_compute in Hrun; subst r; by eexists).
  exists w', resp. split; [reflexivity|].
  destruct (convert_file_success_postcondition env req w w' resp Hrun)
    as (_ & Hout & -> & _).
  split; [exact Hout|]. by vm_compute.
Defined.

Lemma convert_file_found_not_404 env req w detail :
  is_Some (fs w !! input_path_of req) →
  (convert_file env req w).1 ≠ inl (HTTPException 404 detail).
Proof.
  intros E'.
  pose proof (detect_category_spec (filename req) None) as Hd.
  destruct (is_valid_target (classify_spec (filename req) None) (target_format req)) eqn:Hv.
  2:{ by rewrite (convert_file_invalid _ _ _ _ E' Hd Hv). }
  rewrite (convert_file_valid _ _ _ _ E' Hd Hv).
  pose proof (no_http_dispatch env _ (input_path_of req) (output_path_of req)
                (normalize_ext (target_raw_of req)) (valid_target_category _ _ Hv)) as Hno.
  destruct (dispatch _ _ _ _ _ w) as [[e1|[]] w1] eqn:Ed.
  - by rewrite (Hno _ _ _ Ed).
  - by destruct (bool_decide _).
Qed.

(** X3.  An answer 404 of [convert_file] means that no file is stored under
    the id of the request and the extension of its file name: a stored
    upload is never answered 404.  The answer is "Upload not found", the
    world is as it was, and the target of the request plays no part in it:
    the same request with any other target is answered the same. *)
Theorem convert_file_404_means_no_upload (env : Env) (req : ConvertRequest)
    (w w' : World) (detail : string) :
  convert_file env req w = (inl (HTTPException 404 detail), w') →
  fs w !! input_path_of req = None ∧
  detail = "Upload not found" ∧
  w' = w ∧
  ∀ t, convert_file env (mkConvertRequest (file_id req) (filename req) t) w =
         (inl (HTTPException 404 "Upload not found"), w).
Proof.
  intros H. destruct (fs w !! input_path_of req) as [data|] eqn:E.
  { exfalso. apply (convert_file_found_not_404 env req w detail); [by eexists|].
    by rewrite H. }
  rewrite convert_file_not_found in H by done. injection H as <- <-.
  split; [done|]. split; [done|]. split; [done|].
  intros t. by apply convert_file_not_found.
Qed.

Lemma convert_file_404_means_no_upload_witness :
  let env := sample_env true true nothing_installed in
  let req := mkConvertRequest "nobody" "song.mp3" "exe" in
  let w := one_file (UPLOAD_DIR // "a1.mp3") "ID3" in
  convert_file env req w = (inl (HTTPException 404 "Upload not found"), w) ∧
  fs w !! input_path_of req = None ∧
  convert_file env (mkConvertRequest "nobody" "song.mp3" "wav") w =
    (inl (HTTPException 404 "Upload not found"), w).
Proof.
  intros env req w.
  assert (convert_file env req w = (inl (HTTPException 404 "Upload not found"), w)) as Hrun
    by (by vm_compute).
  split; [exact Hrun|].
  destruct (convert_file_404_means_no_upload env req w w _ Hrun) as (Hnone & _ & _ & Hany).
  split; [exact Hnone|exact (Hany "wav")].
Defined.

(** X4.  When [upload_file] has returned, the content is stored under the
    id and the extension of the file name, no other file has changed and
    nothing was run; a conversion requested with the id and the file name of
    the response then finds the upload: it is never answered 404, whatever
    the target. *)
Theorem upload_then_convert_finds_upload (env : Env) (fid fname content : string)
    (content_type : option string) (w w1 : World) (r : UploadResponse) (t : string) :
  upload_file env fid fname content content_type w = (inr r, w1) →
  up_file_id r = fid ∧ up_filename r = fname ∧
  fs w1 !! input_path_of (mkConvertRequest fid fname t) = Some content ∧
  (∀ p, p ≠ input_path_of (mkConvertRequest fid fname t) → fs w1 !! p = fs w !! p) ∧
  log w1 = log w ∧
  ∀ detail,
    (convert_file env (mkConvertRequest (up_file_id r) (up_filename r) t) w1).1 ≠
      inl (HTTPException 404 detail).
Proof.
  rewrite upload_file_result. intros [= <- <-]. cbn [up_file_id up_filename fs log].
  unfold input_path_of. cbn [file_id filename].
  split; [done|]. split; [done|]. split; [by rewrite lookup_insert_eq|].
  split; [intros p Hp; by rewrite lookup_insert_ne|]. split; [done|].
  intros detail.
  apply convert_file_found_not_404. unfold input_path_of. cbn [fs file_id filename].
  rewrite lookup_insert_eq. by eexists.
Qed.

Lemma upload_then_convert_finds_upload_witness :
  let env := sample_env true true nothing_installed in
  ∃ r w1,
    upload_file env "u1" "song.mp3" "ID3" (Some "audio/mpeg") (mkWorld ∅ []) = (inr r, w1) ∧
    fs w1 !! (UPLOAD_DIR // "u1.mp3") = Some "ID3" ∧
    (convert_file env (mkConvertRequest "u1" "song.mp3" "exe") w1).1 =
      inl (HTTPException 400 "Target .exe is not supported for audio").
Proof.
  intros env.
  destruct (upload_file env "u1" "song.mp3" "ID3" (Some "audio/mpeg") (mkWorld ∅ []))
    as [[e|r] w1] eqn:Hup; [by vm_compute in Hup|].
  exists r, w1. split; [reflexivity|].
  destruct (upload_then_convert_finds_upload env "u1" "song.mp3" "ID3" (Some "audio/mpeg")
              (mkWorld ∅ []) w1 r "exe" Hup) as (_ & _ & Hstored & _ & _ & _).
  split; [exact Hstored|].
  rewrite upload_file_result in Hup. injection Hup as <- <-. by vm_compute.
Defined.

Lemma suggestions_valid category ext s :
  s ∈ suggestions category ext → is_valid_target category s = true.
Proof.
  unfold suggestions. fold (catalog_row category).
  intros [_ Hs]%list_elem_of_filter.
  apply is_valid_target_spec. by apply catalog_rows_closed.
Qed.

Lemma classify_spec_listed fname mime :
  dict_mem EXT_TO_CATEGORY (file_ext fname) = true →
  classify_spec fname mime = classify_spec fname None.
Proof.
  intros H. unfold classify_spec. rewrite EXT_TO_CATEGORY_normalized.
  fold (file_ext fname).
  destruct (EXT_TO_CATEGORY !! file_ext fname) eqn:E; [done|].
  by rewrite (dict_mem_None _ _ E) in H.
Qed.

(** X5.  Every suggestion is a valid target of the category it was computed
    for.  For a file whose extension is in the extension table the upload and
    the conversion agree on the category, so a conversion to any suggested
    target of the upload response passes the validation: if it fails, it
    fails with status 500, never with 400 or 404. *)
Theorem suggested_targets_are_accepted (env : Env) (fid fname content : string)
    (content_type : option string) (w : World) (s : string) :
  (∀ category ext, s ∈ suggestions category ext → is_valid_target category s = true) ∧
  (dict_mem EXT_TO_CATEGORY (file_ext fname) = true →
   ∃ r w1,
     upload_file env fid fname content content_type w = (inr r, w1) ∧
     detect_category fname None = inr (up_category r) ∧
     (s ∈ up_suggestions r →
      is_valid_target (up_category r) s = true ∧
      ∀ status detail w2,
        convert_file env (mkConvertRequest fid fname s) w1 =
          (inl (HTTPException status detail), w2) →
        status = 500)).
Proof.
  split; [intros category ext; apply suggestions_valid|].
  intros Hext. eexists _, _. split; [apply upload_file_result|].
  cbn [up_category up_suggestions].
  split; [by rewrite detect_category_spec, (classify_spec_listed _ (Some _))|].
  intros Hs. pose proof (suggestions_valid _ _ _ Hs) as Hv. split; [exact Hv|].
  intros status detail w2.
  set (req := mkConvertRequest fid fname s).
  set (mime := upload_mime env fname content content_type) in *.
  assert (detect_category (filename req) None = inr (classify_spec fname (Some mime))) as Hd
    by (by rewrite detect_category_spec, (classify_spec_listed _ (Some _))).
  match goal with |- convert_file _ _ ?w1 = _ → _ =>
    assert (is_Some (fs w1 !! input_path_of req)) as Hup
      by (unfold input_path_of; cbn [fs file_id filename req];
          rewrite lookup_insert_eq; by eexists)
  end.
  rewrite (convert_file_valid env req _ _ Hup Hd Hv).
  pose proof (no_http_dispatch env _ (input_path_of req) (output_path_of req)
                (normalize_ext (target_raw_of req)) (valid_target_category _ _ Hv)) as Hno.
  match goal with |- context [dispatch ?a ?b ?c ?d ?e ?f] =>
    destruct (dispatch a b c d e f) as [[e1|[]] w3] eqn:Ed end.
  - rewrite (Hno _ _ _ Ed). by intros [= <- _ _].
  - destruct (bool_decide _); [done|]. by intros [= <- _ _].
Qed.

Lemma suggested_targets_are_accepted_witness :
  let env := sample_env true true nothing_installed in
  dict_mem EXT_TO_CATEGORY (file_ext "table.csv") = true ∧
  ∃ r w1,
    upload_file env "s3" "table.csv" "a" (Some "application/octet-stream")
      (mkWorld ∅ []) = (inr r, w1) ∧
    up_suggestions r = ["xlsx"; "xls"; "pdf"] ∧
    is_valid_target (up_category r) "xls" = true.
Proof.
  intros env.
  assert (dict_mem EXT_TO_CATEGORY (file_ext "table.csv") = true) as Hext by (by vm_compute).
  split; [exact Hext|].
  destruct (suggested_targets_are_accepted env "s3" "table.csv" "a"
              (Some "application/octet-stream") (mkWorld ∅ []) "xls")
    as (_ & Hup).
  destruct (Hup Hext) as (r & w1 & Hr & _ & Hacc).
  exists r, w1. split; [exact Hr|].
  rewrite upload_file_result in Hr. injection Hr as <- <-.
  split; [by vm_compute|].
  apply Hacc. refine (bool_decide_unpack _ _). vm_compute. exact I.
Defined.

(** ** What a computation appends to the log *)

Lemma emits_only_ret {A} P (x : A) : emits_only P (mret x).
Proof. intros w r w' [= <- <-]. exists []. by rewrite app_nil_r. Qed.

Lemma emits_only_raise {A} P e : emits_only P (@raise A e).
Proof. intros w r w' [= <- <-]. exists []. by rewrite app_nil_r. Qed.

Lemma emits_only_emit P ev : P ev = true → emits_only P (emit ev).
Proof. intros Hev w r w' [= <- <-]. exists [ev]. simpl. by rewrite Hev. Qed.

Lemma emits_only_bind {A B} P (m : M A) (f : A → M B) :
  emits_only P m → (∀ x, emits_only P (f x)) → emits_only P (m ≫= f).
Proof.
  intros Hm Hf w r w'. rewrite bind_unfold.
  destruct (m w) as [[e|x] w1] eqn:E.
  - intros [= <- <-]. by apply (Hm _ _ _ E).
  - intros Hx. destruct (Hm _ _ _ E) as (evs1 & Hl1 & Hp1).
    destruct (Hf x _ _ _ Hx) as (evs2 & Hl2 & Hp2).
    exists (evs1 ++ evs2)%list. rewrite Hl2, Hl1, <- app_assoc. split; [done|].
    rewrite forallb_app. by rewrite Hp1, Hp2.
Qed.

Lemma emits_only_lib {A} P (r : string + A) : emits_only P (lib r).
Proof. destruct r; [apply emits_only_raise | apply emits_only_ret]. Qed.

Lemma emits_only_read_file P p : emits_only P (read_file p).
Proof. intros w r w' [= <- <-]. exists []. by rewrite app_nil_r. Qed.

Lemma emits_only_write_file P p d : emits_only P (write_file p d).
Proof. intros w r w' [= <- <-]. exists []. simpl. by rewrite app_nil_r. Qed.

Lemma emits_only_try_except {A} P (m : M A) h :
  emits_only P m → (∀ e k, h e = Some k → emits_only P k) →
  emits_only P (try_except m h).
Proof.
  intros Hm Hh w r w'. unfold try_except.
  destruct (m w) as [[e|x] w1] eqn:E.
  - destruct (h e) as [k|] eqn:Ek.
    + intros Hk. destruct (Hm _ _ _ E) as (evs1 & Hl1 & Hp1).
      destruct (Hh _ _ Ek _ _ _ Hk) as (evs2 & Hl2 & Hp2).
      exists (evs1 ++ evs2)%list. rewrite Hl2, Hl1, <- app_assoc. split; [done|].
      rewrite forallb_app. by rewrite Hp1, Hp2.
    + intros [= <- <-]. by apply (Hm _ _ _ E).
  - intros [= <- <-]. by apply (Hm _ _ _ E).
Qed.

Lemma emits_only_try_finally {A} P (m : M A) f :
  emits_only P m → emits_only P f → emits_only P (try_finally m f).
Proof.
  intros Hm Hf w r w'. unfold try_finally.
  destruct (m w) as [r1 w1] eqn:E. destruct (f w1) as [[e2|[]] w2] eqn:E2.
  - intros [= <- <-]. destruct (Hm _ _ _ E) as (evs1 & Hl1 & Hp1).
    destruct (Hf _ _ _ E2) as (evs2 & Hl2 & Hp2).
    exists (evs1 ++ evs2)%list. rewrite Hl2, Hl1, <- app_assoc. split; [done|].
    rewrite forallb_app. by rewrite Hp1, Hp2.
  - intros [= <- <-]. destruct (Hm _ _ _ E) as (evs1 & Hl1 & Hp1).
    destruct (Hf _ _ _ E2) as (evs2 & Hl2 & Hp2).
    exists (evs1 ++ evs2)%list. rewrite Hl2, Hl1, <- app_assoc. split; [done|].
    rewrite forallb_app. by rewrite Hp1, Hp2.
Qed.

Create HintDb emits.
#[local] Hint Resolve emits_only_ret emits_only_raise emits_only_lib emits_only_read_file
  emits_only_write_file : emits.

Ltac emits_step :=
  first
    [ solve [auto with emits]
    | apply emits_only_emit; reflexivity
    | apply emits_only_bind; [|intros ?]
    | case_match ].

Lemma in_process_img_save env img dst fmt q : in_process (img_save env img dst fmt q).
Proof. unfold in_process, img_save. repeat emits_step. Qed.

Lemma in_process_convert_image env src dst target :
  in_process (convert_image env src dst target).
Proof.
  pose proof (in_process_img_save env) as Hs. unfold in_process in *.
  unfold convert_image. repeat emits_step.
Qed.

Lemma in_process_convert_pdf_with_pdfium env src dst target :
  in_process (convert_pdf_with_pdfium env src dst target).
Proof.
  pose proof (in_process_img_save env) as Hs. unfold in_process in *.
  unfold convert_pdf_with_pdfium, pdfium_render_first.
  apply emits_only_bind; [by apply emits_only_emit|intros _].
  destruct (negb _); [apply emits_only_ret|].
  apply emits_only_bind; [by apply emits_only_emit|intros _].
  apply emits_only_bind; [auto with emits|intros c].
  destruct (PdfDocument _ _); [apply emits_only_ret|].
  apply emits_only_try_finally; [|by apply emits_only_emit].
  apply emits_only_try_except; [repeat emits_step|].
  intros e k [= <-]. apply emits_only_ret.
Qed.

(** What [img_save] does to the files. *)
Lemma img_save_files env img dst fmt q w r w' :
  img_save env img dst fmt q w = (r, w') →
  match r with
  | inr _ => ∃ data, Image_save env img fmt q = inr data ∧ fs w' = <[dst := data]> (fs w)
  | inl e => (∃ msg, Image_save env img fmt q = inl msg ∧ e = LibraryError msg) ∧ fs w' = fs w
  end.
Proof.
  unfold img_save. munfold. destruct (Image_save env img fmt q) as [msg|data]; munfold.
  - intros [= <- <-]. split; [by eexists|done].
  - intros [= <- <-]. by eexists.
Qed.

(** A successful [convert_image] wrote the destination. *)
Lemma convert_image_effects' env src dst target w w' :
  convert_image env src dst target w = (inr (), w') →
  ∃ data, fs w' = <[dst := data]> (fs w).
Proof.
  unfold convert_image. rewrite bind_unfold, emit_unfold.
  destruct (HAS_PILLOW env); cbn [negb]; [|done].
  rewrite bind_unfold, emit_unfold, bind_unfold. cbn [read_file]. munfold.
  destruct (Image_open env (fs w !! src)) as [msg|img]; munfold; [done|].
  repeat case_bool_decide;
    (intros Hsave; apply img_save_files in Hsave;
     destruct Hsave as (data & Hdata & Hfs); eauto).
Qed.

(** ** The image adapter *)

(** X6.  [convert_image] works in-process: it runs no external program and
    touches no file but the destination.  Without Pillow it fails at once
    with "Pillow not installed".  When it succeeds the destination holds what
    the encoder produced. *)
Theorem convert_image_effects (env : Env) (src dst : path) (target : string)
    (w w' : World) (r : exn + unit) :
  convert_image env src dst target w = (r, w') →
  (∃ evs, log w' = (log w ++ evs)%list ∧
          forallb (λ ev, negb (is_Subprocess ev)) evs = true) ∧
  (∀ p, p ≠ dst → fs w' !! p = fs w !! p) ∧
  (HAS_PILLOW env = false →
   r = inl (RuntimeError "Pillow not installed") ∧
   w' = mkWorld (fs w) (log w ++ [Enter "convert_image"])) ∧
  (r = inr () →
   ∃ img fmt q data,
     Image_save env img fmt q = inr data ∧ fs w' !! dst = Some data).
Proof.
  intros Hrun. split; [by apply (in_process_convert_image env src dst target w r w')|].
  assert (match r with
          | inr _ => ∃ img fmt q data,
                       Image_save env img fmt q = inr data ∧ fs w' = <[dst := data]> (fs w)
          | inl _ => fs w' = fs w
          end ∧
          (HAS_PILLOW env = false →
           r = inl (RuntimeError "Pillow not installed") ∧
           w' = mkWorld (fs w) (log w ++ [Enter "convert_image"]))) as [Hfiles Hno].
  { revert Hrun. unfold convert_image. rewrite bind_unfold, emit_unfold.
    destruct (HAS_PILLOW env); cbn [negb].
    2:{ intros [= <- <-]. by split. }
    split; [|done]. revert Hrun.
    rewrite bind_unfold, emit_unfold, bind_unfold. cbn [read_file]. munfold.
    destruct (Image_open env (fs w !! src)) as [msg|img]; munfold.
    { by intros [= <- <-]. }
    repeat case_bool_decide;
      (intros Hsave; apply img_save_files in Hsave; destruct r as [e|[]];
       [ by destruct Hsave
       | destruct Hsave as (data & Hdata & Hfs); eauto 10 ]). }
  split; [|split; [exact Hno|]].
  - intros p Hp. destruct r as [e|[]]; [by rewrite Hfiles|].
    destruct Hfiles as (img & fmt & q & data & _ & ->). by rewrite lookup_insert_ne.
  - intros ->. destruct Hfiles as (img & fmt & q & data & Hsave & ->).
    exists img, fmt, q, data. by rewrite lookup_insert_eq.
Qed.

Lemma convert_image_effects_witness :
  let env := sample_env true true nothing_installed in
  let src := UPLOAD_DIR // "i1.png" in
  let dst := OUTPUT_DIR // "i1_logo.jpg" in
  let w := one_file src "pixels" in
  HAS_PILLOW env = false ∧
  convert_image env src dst "jpg" w =
    (inl (RuntimeError "Pillow not installed"),
     mkWorld (fs w) (log w ++ [Enter "convert_image"])).
Proof.
  intros env src dst w. split; [reflexivity|].
  destruct (convert_image env src dst "jpg" w) as [r w'] eqn:Hrun.
  destruct (convert_image_effects env src dst "jpg" w w' r Hrun) as (_ & _ & Hno & _).
  destruct (Hno eq_refl) as [-> ->]. reflexivity.
Defined.

(** ** The dispatch, category by category *)

Ltac dispatch_cases :=
  unfold dispatch;
  repeat (case_bool_decide;
          try (exfalso; rewrite ?elem_of_cons, ?elem_of_nil in *; intuition congruence));
  try reflexivity.

Lemma dispatch_image env i o t : dispatch env "image" i o t = convert_image env i o t.
Proof. dispatch_cases. Qed.

Lemma dispatch_media env category i o t :
  category ∈ ["audio"; "video"] → dispatch env category i o t = convert_media env i o t.
Proof. intros Hc. dispatch_cases. Qed.

Lemma dispatch_spreadsheet env i o t :
  dispatch env "spreadsheet" i o t = convert_spreadsheet env i o t.
Proof. dispatch_cases. Qed.

Lemma dispatch_office env category i o t :
  category ∈ ["document"; "presentation"] →
  dispatch env category i o t = convert_office env i o t.
Proof. intros Hc. dispatch_cases. Qed.

Lemma dispatch_pdf env i o t : dispatch env "pdf" i o t = convert_pdf env i o t.
Proof. dispatch_cases. Qed.

(** A successful serialization leaves the file. *)
Lemma serialized_files ev r dst w res w' :
  serialized ev r dst w = (res, w') →
  match res with
  | inr _ => is_Some (fs w' !! dst)
  | inl _ => fs w' = fs w
  end.
Proof.
  unfold serialized. destruct r as [msg|data]; intros [= <- <-]; [done|].
  cbn [fs]. rewrite lookup_insert_eq. by eexists.
Qed.

(** X7.  The conversions done in-process leave their output or fail: for an
    image, and for a spreadsheet converted to csv or xlsx, [convert_file]
    never answers "Conversion produced no output file". *)
Theorem in_process_conversions_leave_output (env : Env) (req : ConvertRequest)
    (w : World) (category : string) :
  detect_category (filename req) None = inr category →
  category = "image" ∨
  (category = "spreadsheet" ∧ normalize_ext (target_raw_of req) ∈ ["csv"; "xlsx"]) →
  (convert_file env req w).1 ≠
    inl (HTTPException 500 "Conversion produced no output file").
Proof.
  intros Hd Hcat.
  destruct (fs w !! input_path_of req) as [data|] eqn:E.
  2:{ by rewrite convert_file_not_found. }
  assert (is_Some (fs w !! input_path_of req)) as E' by (by eexists).
  destruct (is_valid_target category (target_format req)) eqn:Hv.
  2:{ by rewrite (convert_file_invalid _ _ _ _ E' Hd Hv). }
  rewrite (convert_file_valid _ _ _ _ E' Hd Hv).
  pose proof (no_http_dispatch env _ (input_path_of req) (output_path_of req)
                (normalize_ext (target_raw_of req)) (valid_target_category _ _ Hv)) as Hno.
  destruct (dispatch _ _ _ _ _ w) as [[e1|[]] w1] eqn:Ed.
  { by rewrite (Hno _ _ _ Ed). }
  assert (is_Some (fs w1 !! output_path_of req)) as Hout.
  { destruct Hcat as [->|[-> Ht]].
    - rewrite dispatch_image in Ed.
      destruct (convert_image_effects' env _ _ _ _ _ Ed) as (data' & ->).
      rewrite lookup_insert_eq. by eexists.
    - rewrite dispatch_spreadsheet in Ed.
      destruct (HAS_PANDAS env) eqn:Hp.
      2:{ by rewrite convert_spreadsheet_no_pandas in Ed. }
      destruct (read_source env (input_path_of req) w) as [msg|df] eqn:Hr.
      { by rewrite (convert_spreadsheet_unparsed _ _ _ _ _ msg) in Ed. }
      rewrite (convert_spreadsheet_parsed _ _ _ _ _ df Hp Hr) in Ed.
      rewrite ?elem_of_cons, ?elem_of_nil in Ht.
      destruct Ht as [Ht|[Ht|[]]]; rewrite Ht in Ed; cbn in Ed;
        by apply serialized_files in Ed. }
  by rewrite bool_decide_eq_true_2.
Qed.

Lemma in_process_conversions_leave_output_witness :
  let env := sample_env true true nothing_installed in
  let req := mkConvertRequest "s2" "table.csv" "XLSX" in
  let w := one_file (UPLOAD_DIR // "s2.csv") "a" in
  detect_category (filename req) None = inr "spreadsheet" ∧
  (normalize_ext (target_raw_of req) ∈ ["csv"; "xlsx"]) ∧
  (convert_file env req w).1 ≠
    inl (HTTPException 500 "Conversion produced no output file").
Proof.
  intros env req w.
  assert (detect_category (filename req) None = inr "spreadsheet") as Hd by (by vm_compute).
  assert (normalize_ext (target_raw_of req) ∈ ["csv"; "xlsx"]) as Ht
    by (refine (bool_decide_unpack _ _); vm_compute; exact I).
  split; [exact Hd|]. split; [exact Ht|].
  apply (in_process_conversions_leave_output env req w "spreadsheet" Hd).
  right. by split.
Defined.

(** ** Truncated diagnostics *)







(** ** External adapters under the router *)

(** X9.  The media adapter goes by the exit code that the call of ffmpeg
    returns and does not look for the output; the router does.  For an audio
    or video request with a valid target, when the call returns exit code 0
    the conversion succeeds if the output file is there afterwards and
    otherwise fails with "Conversion produced no output file".  When the call
    raises because ffmpeg printed what is no text, the conversion fails with
    status 500 "Conversion failed: ...", also when ffmpeg has exited with 0
    and has written the output. *)
Theorem media_conversion_needs_output_file (env : Env) (req : ConvertRequest)
    (w : World) (category : string) (f' : gmap path string) :
  let argv := ["ffmpeg"; "-y"; "-i"; Path.str (input_path_of req);
               Path.str (output_path_of req)] in
  let w' := mkWorld f' (log w ++ [Enter "convert_media"; Subprocess argv]) in
  is_Some (fs w !! input_path_of req) →
  detect_category (filename req) None = inr category →
  category ∈ ["audio"; "video"] →
  is_valid_target category (target_format req) = true →
  (∀ err, run_program env argv 300 (fs w) = Completed 0 err f' →
   convert_file env req w =
     ((if bool_decide (is_Some (f' !! output_path_of req))
       then inr (mkFileResponse (Path.str (output_path_of req)) (output_filename_of req)
                   "application/octet-stream")
       else inl (HTTPException 500 "Conversion produced no output file")), w')) ∧
  (∀ rc msg, run_program env argv 300 (fs w) = Undecodable rc msg f' →
   convert_file env req w = (inl (HTTPException 500 ("Conversion failed: " ++ msg)), w')).
Proof.
  intros argv w' E Hd Hc Hv. subst argv w'.
  rewrite (convert_file_valid _ _ _ _ E Hd Hv), dispatch_media by done.
  unfold convert_media. rewrite bind_unfold, emit_unfold. split.
  - intros err Hrun.
    rewrite bind_unfold, (subprocess_run_completed _ _ _ _ 0 err f') by exact Hrun.
    cbn [fst snd fs log]. rewrite bool_decide_eq_false_2 by (intros H; by apply H).
    unfold mret, M_ret. cbn [fs]. rewrite <- app_assoc.
    by destruct (bool_decide _).
  - intros rc msg Hrun.
    rewrite bind_unfold, (subprocess_run_undecodable _ _ _ _ rc msg f') by exact Hrun.
    cbn [fs log is_HTTPException exn_str]. by rewrite <- app_assoc.
Qed.

Lemma media_conversion_needs_output_file_witness :
  let env := sample_env true true (sample_tool "ffmpeg" 0 "" []) in
  let req := mkConvertRequest "m2" "talk.wav" "mp3" in
  let w := one_file (UPLOAD_DIR // "m2.wav") "RIFF" in
  let written := <[OUTPUT_DIR // "m2_talk.mp3" := "ID3"]> (fs w) in
  let garbled :=
    sample_env true true (garbling_tool "ffmpeg" 0 [(OUTPUT_DIR // "m2_talk.mp3", "ID3")]) in
  is_Some (fs w !! input_path_of req) ∧
  detect_category (filename req) None = inr "audio" ∧
  ("audio" ∈ ["audio"; "video"]) ∧
  is_valid_target "audio" (target_format req) = true ∧
  (convert_file env req w).1 =
    inl (HTTPException 500 "Conversion produced no output file") ∧
  is_Some (written !! output_path_of req) ∧
  (convert_file garbled req w).1 =
    inl (HTTPException 500 "Conversion failed: invalid start byte").
Proof.
  intros env req w written garbled.
  assert (is_Some (fs w !! input_path_of req)) as E by (vm_compute; by eexists).
  assert (detect_category (filename req) None = inr "audio") as Hd by (by vm_compute).
  assert ("audio" ∈ ["audio"; "video"]) as Hc
    by (refine (bool_decide_unpack _ _); vm_compute; exact I).
  assert (is_valid_target "audio" (target_format req) = true) as Hv by (by vm_compute).
  split; [exact E|]. split; [exact Hd|]. split; [exact Hc|]. split; [exact Hv|].
  destruct (media_conversion_needs_output_file env req w "audio" (fs w) E Hd Hc Hv)
    as (Hzero & _).
  destruct (media_conversion_needs_output_file garbled req w "audio" written E Hd Hc Hv)
    as (_ & Hraised).
  split; [|split; [vm_compute; by eexists|by rewrite (Hraised 0 "invalid start byte" eq_refl)]].
  rewrite (Hzero "" eq_refl).
  cbn [fst]. rewrite bool_decide_eq_false_2; [done|].
  intros [x Hx]. by vm_compute in Hx.
Defined.

(** X10.  For a document or a presentation with a valid target, with
    LibreOffice having left a file under the stem of the stored upload and
    the extension of the target in the output directory: when the call of
    LibreOffice returns exit code 0 the conversion succeeds and that file is
    at the output path of the response; when the call raises because
    LibreOffice printed what is no text, the conversion fails with status
    500 and the file stays where LibreOffice left it. *)
Theorem office_conversion_delivers_tool_output (env : Env) (req : ConvertRequest)
    (w : World) (category data : string) (f' : gmap path string) :
  let target := normalize_ext (target_raw_of req) in
  let argv := libreoffice_argv (input_path_of req) (output_path_of req) target in
  is_Some (fs w !! input_path_of req) →
  detect_category (filename req) None = inr category →
  category ∈ ["document"; "presentation"] →
  is_valid_target category (target_format req) = true →
  f' !! (Path.parent (output_path_of req) //
         (Path.stem (input_path_of req) ++ "." ++ target)) = Some data →
  (∀ err, run_program env argv 120 (fs w) = Completed 0 err f' →
   ∃ w',
     convert_file env req w =
       (inr (mkFileResponse (Path.str (output_path_of req)) (output_filename_of req)
               "application/octet-stream"), w') ∧
     fs w' !! output_path_of req = Some data) ∧
  (∀ rc msg, run_program env argv 120 (fs w) = Undecodable rc msg f' →
   convert_file env req w =
     (inl (HTTPException 500 ("Conversion failed: " ++ msg)),
      mkWorld f' (log w ++ [Enter "convert_office"; Subprocess argv]))).
Proof.
  intros target argv E Hd Hc Hv Hout.
  rewrite (convert_file_valid _ _ _ _ E Hd Hv), dispatch_office by done.
  fold target. split.
  - intros err Hrun. rewrite (convert_office_completed _ _ _ _ _ err f' Hrun).
    unfold office_expected. rewrite Hout.
    destruct (decide (_ ≠ output_path_of req)) as [Hne|Heq].
    + cbn [fs]. rewrite bool_decide_eq_true_2 by (rewrite lookup_insert_eq; by eexists).
      eexists. split; [reflexivity|]. cbn [fs]. by rewrite lookup_insert_eq.
    + assert (f' !! output_path_of req = Some data) as Hdst.
      { rewrite <- Hout. f_equal. symmetry.
        destruct (decide (Path.parent (output_path_of req) //
                            (Path.stem (input_path_of req) ++ "." ++ target) =
                          output_path_of req)); [done|by destruct Heq]. }
      cbn [fs]. rewrite bool_decide_eq_true_2 by (by eexists).
      eexists. split; [reflexivity|]. done.
  - intros rc msg Hrun. unfold convert_office.
    rewrite bind_unfold, emit_unfold. cbv zeta. rewrite office_lo_format.
    rewrite bind_unfold, (subprocess_run_undecodable _ _ _ _ rc msg f') by exact Hrun.
    cbn [fs log is_HTTPException exn_str]. by rewrite <- app_assoc.
Qed.

Lemma office_conversion_delivers_tool_output_witness :
  let env := sample_env true true
               (sample_tool "libreoffice" 0 "" [(OUTPUT_DIR // "d1.pdf", "%PDF-1.7")]) in
  let req := mkConvertRequest "d1" "notes.docx" "pdf" in
  let w := one_file (UPLOAD_DIR // "d1.docx") "docx" in
  ∃ w',
    convert_file env req w =
      (inr (mkFileResponse "outputs/d1_notes.pdf" "notes.pdf" "application/octet-stream"),
       w') ∧
    fs w' !! (OUTPUT_DIR // "d1_notes.pdf") = Some "%PDF-1.7".
Proof.
  intros env req w.
  assert (is_Some (fs w !! input_path_of req)) as E by (vm_compute; by eexists).
  assert (detect_category (filename req) None = inr "document") as Hd by (by vm_compute).
  assert ("document" ∈ ["document"; "presentation"]) as Hc
    by (refine (bool_decide_unpack _ _); vm_compute; exact I).
  assert (is_valid_target "document" (target_format req) = true) as Hv by (by vm_compute).
  destruct (office_conversion_delivers_tool_output env req w "document" "%PDF-1.7"
              (<[OUTPUT_DIR // "d1.pdf" := "%PDF-1.7"]> (fs w)) E Hd Hc Hv)
    as (Hzero & _); [by vm_compute|].
  destruct (Hzero "" eq_refl) as (w' & Hrun & Hfile).
  exists w'. split; [exact Hrun|exact Hfile].
Defined.

(** ** The PDF adapter, target by target *)

Lemma convert_pdf_webp env src dst w :
  convert_pdf env src dst "webp" w =
    match convert_pdf_with_pdfium env src dst "webp"
            (mkWorld (fs w) (log w ++ [Enter "convert_pdf"])) with
    | (inl e, w2) => (inl e, w2)
    | (inr true, w2) => (inr (), w2)
    | (inr false, w2) => (inl (RuntimeError webp_message), w2)
    end.
Proof.
  unfold convert_pdf. rewrite bind_unfold, emit_unfold.
  rewrite bool_decide_eq_false_2
    by (rewrite ?elem_of_cons, ?elem_of_nil; intros [?|[?|[]]]; discriminate).
  rewrite bool_decide_eq_true_2 by done. rewrite bind_unfold.
  by destruct (convert_pdf_with_pdfium _ _ _ _ _) as [[e|[]] w2].
Qed.

(** X11.  For the target webp only the in-process renderer is used: no
    external program is ever run.  The conversion either succeeds or fails
    with "PDF to WEBP requires pypdfium2."; without pypdfium2 it fails at
    once and no file changes. *)
Theorem pdf_to_webp_uses_only_pdfium (env : Env) (src dst : path) (w w' : World)
    (r : exn + unit) :
  convert_pdf env src dst "webp" w = (r, w') →
  (∃ evs, log w' = (log w ++ evs)%list ∧
          forallb (λ ev, negb (is_Subprocess ev)) evs = true) ∧
  (r = inr () ∨ r = inl (RuntimeError "PDF to WEBP requires pypdfium2.")) ∧
  (HAS_PDFIUM env = false →
   r = inl (RuntimeError "PDF to WEBP requires pypdfium2.") ∧
   w' = mkWorld (fs w) (log w ++ [Enter "convert_pdf"; Enter "convert_pdf_with_pdfium"])).
Proof.
  rewrite convert_pdf_webp. intros Hrun.
  destruct (convert_pdf_with_pdfium env src dst "webp"
              (mkWorld (fs w) (log w ++ [Enter "convert_pdf"]))) as [r2 w2] eqn:E2.
  split; [|split].
  - destruct (in_process_convert_pdf_with_pdfium env src dst "webp" _ _ _ E2)
      as (evs & Hlog & Hev). cbn [log] in Hlog.
    exists (Enter "convert_pdf" :: evs).
    assert (log w' = log w2) as -> by (destruct r2 as [?|[]]; by injection Hrun as <- <-).
    rewrite Hlog, <- app_assoc. by split.
  - destruct (convert_pdf_with_pdfium_result env src dst "webp"
                (mkWorld (fs w) (log w ++ [Enter "convert_pdf"])))
      as (ok & f2 & evs & Hres & _).
    rewrite Hres in E2. injection E2 as <- <-.
    destruct ok; injection Hrun as <- <-; [by left|by right].
  - intros Hp. revert E2. unfold convert_pdf_with_pdfium.
    rewrite bind_unfold, emit_unfold, Hp. cbn [negb].
    intros [= <- <-]. injection Hrun as <- <-. cbn [fs log].
    by rewrite <- app_assoc.
Qed.

Lemma pdf_to_webp_uses_only_pdfium_witness :
  let env := sample_env true false (sample_tool "pdftoppm" 0 "" []) in
  let src := UPLOAD_DIR // "p2.pdf" in
  let dst := OUTPUT_DIR // "p2_doc.webp" in
  let w := one_file src "page" in
  HAS_PDFIUM env = false ∧
  convert_pdf env src dst "webp" w =
    (inl (RuntimeError "PDF to WEBP requires pypdfium2."),
     mkWorld (fs w) [Enter "convert_pdf"; Enter "convert_pdf_with_pdfium"]).
Proof.
  intros env src dst w. split; [reflexivity|].
  destruct (convert_pdf env src dst "webp" w) as [r w'] eqn:Hrun.
  destruct (pdf_to_webp_uses_only_pdfium env src dst w w' r Hrun) as (_ & _ & Hno).
  destruct (Hno eq_refl) as [-> ->]. reflexivity.
Defined.

(** X12.  For the target txt [convert_pdf] calls pdftotext once and neither
    renderer.  When the call returns a non-zero exit code the adapter fails
    with "pdftotext error: " followed by the whole decoded standard error,
    however long; when it returns exit code 0 the adapter succeeds with the
    files as the tool left them.  An exception of the call is what the
    adapter raises, not a message of its own: [FileNotFoundError] for a
    missing tool, [TimeoutExpired] after 60 seconds, [UnicodeDecodeError]
    when what the tool printed is no text. *)
Theorem pdf_to_text_outcomes (env : Env) (src dst : path) (w : World) :
  let argv := ["pdftotext"; Path.str src; Path.str dst] in
  let ran := (log w ++ [Enter "convert_pdf"; Subprocess argv])%list in
  (∀ rc err f', run_program env argv 60 (fs w) = Completed rc err f' → rc ≠ 0 →
     convert_pdf env src dst "txt" w =
       (inl (RuntimeError ("pdftotext error: " ++ err)), mkWorld f' ran)) ∧
  (∀ err f', run_program env argv 60 (fs w) = Completed 0 err f' →
     convert_pdf env src dst "txt" w = (inr (), mkWorld f' ran)) ∧
  (run_program env argv 60 (fs w) = NotInstalled →
     ∃ msg, convert_pdf env src dst "txt" w =
              (inl (FileNotFoundError msg), mkWorld (fs w) ran)) ∧
  (∀ f', run_program env argv 60 (fs w) = TimedOut f' →
     ∃ msg, convert_pdf env src dst "txt" w =
              (inl (TimeoutExpired msg), mkWorld f' ran)) ∧
  (∀ rc msg f', run_program env argv 60 (fs w) = Undecodable rc msg f' →
     convert_pdf env src dst "txt" w = (inl (UnicodeDecodeError msg), mkWorld f' ran)).
Proof.
  intros argv ran.
  assert (
    convert_pdf env src dst "txt" w =
    match subprocess_run env argv 60 (mkWorld (fs w) (log w ++ [Enter "convert_pdf"])) with
    | (inl e, w1) => (inl e, w1)
    | (inr result, w1) =>
        (if bool_decide (result.1 ≠ 0)
         then raise (RuntimeError ("pdftotext error: " ++ result.2)) else mret ()) w1
    end) as Hunf.
  { unfold convert_pdf. rewrite bind_unfold, emit_unfold.
    rewrite bool_decide_eq_false_2
      by (rewrite ?elem_of_cons, ?elem_of_nil; intros [?|[?|[]]]; discriminate).
    rewrite bool_decide_eq_false_2 by discriminate.
    rewrite bool_decide_eq_true_2 by done. by rewrite bind_unfold. }
  rewrite Hunf. subst ran. split; [|split; [|split; [|split]]].
  - intros rc err f' E Hrc.
    rewrite (subprocess_run_completed _ _ _ _ rc err f') by exact E.
    cbn [fst snd fs log]. rewrite (bool_decide_eq_true_2 _ Hrc).
    unfold raise. by rewrite <- app_assoc.
  - intros err f' E.
    rewrite (subprocess_run_completed _ _ _ _ 0 err f') by exact E.
    cbn [fst snd fs log]. rewrite bool_decide_eq_false_2 by (intros H; by apply H).
    unfold mret, M_ret. by rewrite <- app_assoc.
  - intros E. rewrite subprocess_run_not_installed by exact E.
    cbn [fs log]. eexists. by rewrite <- app_assoc.
  - intros f' E. rewrite (subprocess_run_timed_out _ _ _ _ f') by exact E.
    cbn [fs log]. eexists. by rewrite <- app_assoc.
  - intros rc msg f' E. rewrite (subprocess_run_undecodable _ _ _ _ rc msg f') by exact E.
    cbn [fs log]. by rewrite <- app_assoc.
Qed.

Lemma pdf_to_text_outcomes_witness :
  let env := sample_env true true (sample_tool "pdftotext" 3 "Syntax Error: broken xref" []) in
  let src := UPLOAD_DIR // "p3.pdf" in
  let dst := OUTPUT_DIR // "p3_doc.txt" in
  let w := one_file src "page" in
  run_program env ["pdftotext"; Path.str src; Path.str dst] 60 (fs w) =
    Completed 3 "Syntax Error: broken xref" (fs w) ∧
  (3 ≠ 0) ∧
  convert_pdf env src dst "txt" w =
    (inl (RuntimeError "pdftotext error: Syntax Error: broken xref"),
     mkWorld (fs w) [Enter "convert_pdf";
                     Subprocess ["pdftotext"; "uploads/p3.pdf"; "outputs/p3_doc.txt"]]).
Proof.
  intros env src dst w.
  assert (3 ≠ 0) as Hrc by done.
  split; [reflexivity|]. split; [exact Hrc|].
  destruct (pdf_to_text_outcomes env src dst w) as (Hfail & _).
  exact (Hfail 3 "Syntax Error: broken xref" (fs w) eq_refl Hrc).
Defined.

(** The failures of [convert_pdf] for txt. *)
Lemma pdf_to_text_failures env src dst w e w' :
  convert_pdf env src dst "txt" w = (inl e, w') →
  (∃ msg, e = FileNotFoundError msg) ∨ (∃ msg, e = TimeoutExpired msg) ∨
  (∃ msg, e = UnicodeDecodeError msg) ∨ (∃ msg, e = LibraryError msg) ∨
  (∃ err, e = RuntimeError ("pdftotext error: " ++ err)).
Proof.
  unfold convert_pdf. rewrite bind_unfold, emit_unfold.
  rewrite bool_decide_eq_false_2
    by (rewrite ?elem_of_cons, ?elem_of_nil; intros [?|[?|[]]]; discriminate).
  rewrite bool_decide_eq_false_2 by discriminate.
  rewrite bool_decide_eq_true_2 by done. rewrite bind_unfold.
  unfold subprocess_run. munfold.
  destruct (run_program _ _ _ _) as [|f'|rc msg f'|msg f'|rc err f']; simpl.
  - intros [= <- _]. left. by eexists.
  - intros [= <- _]. right; left. by eexists.
  - intros [= <- _]. right; right; left. by eexists.
  - intros [= <- _]. right; right; right; left. by eexists.
  - case_bool_decide; [|done]. intros [= <- _]. repeat right. by eexists.
Qed.

Lemma normalize_ext_not_alias x : normalize_ext x ≠ "jpeg" ∧ normalize_ext x ≠ "tif".
Proof.
  unfold normalize_ext. fold (apply_alias (Str.lstrip_dot (Str.lower x))).
  destruct (apply_alias_cases (Str.lstrip_dot (Str.lower x)))
    as [[_ ->]|[[_ ->]|(Hj & Ht & ->)]]; by split.
Qed.

(** The failures of [convert_pdf] for png and jpg. *)
Lemma convert_pdf_image_failures env src dst target w e w' :
  target ∈ ["png"; "jpg"] →
  convert_pdf env src dst target w = (inl e, w') →
  e = TimeoutExpired "pdftoppm" ∨ (∃ msg, e = UnicodeDecodeError msg) ∨
  (∃ msg, e = LibraryError msg) ∨ e = RuntimeError no_backend_message.
Proof.
  intros Ht. rewrite (convert_pdf_image _ _ _ _ _ Ht), convert_pdf_with_poppler_result.
  assert (∀ w1,
    match convert_pdf_with_pdfium env src dst target w1 with
    | (inl e, w2) => (inl e, w2)
    | (inr true, w2) => (inr (), w2)
    | (inr false, w2) => (inl (RuntimeError no_backend_message), w2)
    end = (inl e, w') → e = RuntimeError no_backend_message) as Hsecond.
  { intros w1. destruct (convert_pdf_with_pdfium_result env src dst target w1)
      as (ok & f2 & evs & -> & _). destruct ok; [done|]. by intros [= <- _]. }
  destruct (run_program _ _ _ _) as [|f'|rc msg f'|msg f'|rc err f'].
  - intros H. repeat right. by eapply Hsecond.
  - intros [= <- _]. by left.
  - intros [= <- _]. right; left. by eexists.
  - intros [= <- _]. right; right; left. by eexists.
  - case_bool_decide.
    + intros Hrun. repeat right. by eapply Hsecond.
    + destruct (take_candidate_result dst (poppler_candidates dst target)
                  (after_poppler src dst target
                     (mkWorld (fs w) (log w ++ [Enter "convert_pdf"])) f'))
        as (ok & f2 & evs & -> & _).
      destruct ok; [done|]. intros Hrun. repeat right. by eapply Hsecond.
Qed.

(** X13.  The targets the router accepts for a PDF are, once normalized, the
    four that [convert_pdf] handles (png, jpg, webp, txt: jpeg comes in as
    jpg), so for an accepted target the adapter never answers "Unsupported
    PDF target"; for any other target it answers that at once and runs
    nothing. *)
Theorem pdf_targets_of_catalog_are_handled (env : Env) (src dst : path) (w : World)
    (t : string) :
  (is_valid_target "pdf" t = true ↔ normalize_ext t ∈ ["png"; "jpg"; "webp"; "txt"]) ∧
  (is_valid_target "pdf" t = true →
   ∀ x, (convert_pdf env src dst (normalize_ext t) w).1 ≠
          inl (RuntimeError ("Unsupported PDF target: " ++ x))) ∧
  (t ∉ ["png"; "jpg"; "webp"; "txt"] →
   convert_pdf env src dst t w =
     (inl (RuntimeError ("Unsupported PDF target: " ++ t)),
      mkWorld (fs w) (log w ++ [Enter "convert_pdf"]))).
Proof.
  assert (is_valid_target "pdf" t = true ↔ normalize_ext t ∈ ["png"; "jpg"; "webp"; "txt"])
    as Hvalid.
  { rewrite is_valid_target_spec.
    change (catalog_row "pdf") with ["png"; "jpg"; "jpeg"; "webp"; "txt"].
    pose proof (normalize_ext_not_alias t) as [Hj _].
    rewrite !elem_of_cons, !elem_of_nil. tauto. }
  split; [exact Hvalid|]. split.
  - intros Hv x. apply Hvalid in Hv. rewrite !elem_of_cons, elem_of_nil in Hv.
    destruct (convert_pdf env src dst (normalize_ext t) w) as [[e|[]] w'] eqn:Hrun; [|done].
    cbn [fst]. intros [= ->].
    destruct Hv as [Ht|[Ht|[Ht|[Ht|[]]]]]; rewrite Ht in Hrun.
    + apply convert_pdf_image_failures in Hrun as [?|[[? ?]|[[? ?]|?]]];
        [done|done|done|done|].
      rewrite !elem_of_cons. auto.
    + apply convert_pdf_image_failures in Hrun as [?|[[? ?]|[[? ?]|?]]];
        [done|done|done|done|].
      rewrite !elem_of_cons. auto.
    + rewrite convert_pdf_webp in Hrun.
      destruct (convert_pdf_with_pdfium_result env src dst "webp"
                  (mkWorld (fs w) (log w ++ [Enter "convert_pdf"])))
        as (ok & f2 & evs & Hres & _).
      rewrite Hres in Hrun. by destruct ok.
    + destruct (pdf_to_text_failures env src dst w _ _ Hrun)
        as [[m ?]|[[m ?]|[[m ?]|[[m ?]|[m ?]]]]]; done.
  - intros Ht. rewrite !elem_of_cons, elem_of_nil in Ht.
    unfold convert_pdf. rewrite bind_unfold, emit_unfold.
    rewrite bool_decide_eq_false_2 by (rewrite !elem_of_cons, elem_of_nil; tauto).
    rewrite !bool_decide_eq_false_2 by tauto. reflexivity.
Qed.

Lemma pdf_targets_of_catalog_are_handled_witness :
  let env := sample_env true true nothing_installed in
  let src := UPLOAD_DIR // "p4.pdf" in
  let dst := OUTPUT_DIR // "p4_doc.bmp" in
  let w := one_file src "page" in
  is_valid_target "pdf" ".JPEG" = true ∧
  ("bmp" ∉ ["png"; "jpg"; "webp"; "txt"]) ∧
  convert_pdf env src dst "bmp" w =
    (inl (RuntimeError "Unsupported PDF target: bmp"),
     mkWorld (fs w) [Enter "convert_pdf"]).
Proof.
  intros env src dst w.
  assert ("bmp" ∉ ["png"; "jpg"; "webp"; "txt"]) as Hbmp
    by (refine (bool_decide_unpack _ _); vm_compute; exact I).
  split; [by vm_compute|]. split; [exact Hbmp|].
  destruct (pdf_targets_of_catalog_are_handled env src dst w "bmp") as (_ & _ & Hother).
  exact (Hother Hbmp).
Defined.

(** X14.  The Secondary Renderer closes every document it has opened,
    whatever happens in between: when [PdfDocument] returns a document the
    events of the call end with [PdfClose], once; when it raises, or when
    pypdfium2 is absent, there is nothing to close and nothing is closed. *)
Theorem pdfium_closes_what_it_opened (env : Env) (src dst : path) (target : string)
    (w : World) :
  ∃ ok f2 evs,
    convert_pdf_with_pdfium env src dst target w = (inr ok, mkWorld f2 (log w ++ evs)) ∧
    (HAS_PDFIUM env = false → evs = [Enter "convert_pdf_with_pdfium"]) ∧
    (∀ msg, HAS_PDFIUM env = true → PdfDocument env (fs w !! src) = inl msg →
       evs = [Enter "convert_pdf_with_pdfium"; PdfOpen (Path.str src)]) ∧
    (∀ pdf, HAS_PDFIUM env = true → PdfDocument env (fs w !! src) = inr pdf →
       ∃ body,
         evs = ([Enter "convert_pdf_with_pdfium"; PdfOpen (Path.str src)] ++
                body ++ [PdfClose])%list ∧
         (PdfClose ∉ body) ∧ (∀ p, PdfOpen p ∉ body)).
Proof.
  unfold convert_pdf_with_pdfium. rewrite bind_unfold, emit_unfold.
  destruct (HAS_PDFIUM env); cbn [negb].
  2:{ exists false, (fs w), [Enter "convert_pdf_with_pdfium"]. by repeat split. }
  munfold. destruct (PdfDocument env (fs w !! src)) as [msg|pdf].
  { exists false, (fs w), [Enter "convert_pdf_with_pdfium"; PdfOpen (Path.str src)].
    rewrite <- app_assoc. split; [done|]. split; [done|]. split; [done|]. by intros. }
  assert (∀ ok f2 body,
    PdfClose ∉ body → (∀ p, PdfOpen p ∉ body) →
    ∃ ok' f2' evs,
      (inr ok, mkWorld f2
         ((((log w ++ [Enter "convert_pdf_with_pdfium"]) ++ [PdfOpen (Path.str src)]) ++
           body) ++ [PdfClose])%list) =
      (@inr exn bool ok', mkWorld f2' (log w ++ evs)) ∧
      (true = false → evs = [Enter "convert_pdf_with_pdfium"]) ∧
      (∀ msg : string, true = true → @inr string (list string) pdf = inl msg →
         evs = [Enter "convert_pdf_with_pdfium"; PdfOpen (Path.str src)]) ∧
      (∀ pdf0, true = true → @inr string (list string) pdf = inr pdf0 →
         ∃ body0,
           evs = ([Enter "convert_pdf_with_pdfium"; PdfOpen (Path.str src)] ++
                  body0 ++ [PdfClose])%list ∧
           (PdfClose ∉ body0) ∧ (∀ p, PdfOpen p ∉ body0))) as Hdone.
  { intros ok f2 body Hc Ho.
    exists ok, f2, ([Enter "convert_pdf_with_pdfium"; PdfOpen (Path.str src)] ++
                    body ++ [PdfClose])%list.
    split; [by rewrite <- !app_assoc|]. split; [done|]. split; [done|].
    intros pdf0 _ _. by exists body. }
  assert (∀ l : list event, l = (l ++ [])%list) as Hnil by (intros l; by rewrite app_nil_r).
  unfold pdfium_render_first. case_bool_decide as Hlen.
  { munfold. rewrite (Hnil (_ ++ [PdfOpen _])%list).
    apply Hdone; [apply not_elem_of_nil|intros p; apply not_elem_of_nil]. }
  destruct pdf as [|page pages]; [by destruct Hlen|]. munfold.
  assert (∀ evs : list event,
            forallb (λ ev, match ev with PdfClose | PdfOpen _ => false | _ => true end) evs
              = true →
            (PdfClose ∉ evs) ∧ (∀ p, PdfOpen p ∉ evs)) as Hnot.
  { intros evs. rewrite forallb_forall. intros H. split; [|intros p];
      intros Hin%list_elem_of_In; by specialize (H _ Hin). }
  destruct (page_render env page 2) as [msg|img]; munfold.
  { apply Hdone; by apply (Hnot [PdfRender 0]). }
  unfold img_save. munfold.
  repeat case_bool_decide;
    try (match goal with
         | |- context [Image_save env ?i ?f ?q] =>
             destruct (Image_save env i f q) as [msg|data]; munfold;
             rewrite <- (app_assoc _ [PdfRender 0] [ImageSave dst f]);
             apply Hdone; by apply (Hnot [PdfRender 0; ImageSave dst f])
         end).
  cbn [fs log]. apply Hdone; by apply (Hnot [PdfRender 0]).
Qed.

Lemma pdfium_closes_what_it_opened_witness :
  let env := sample_env true true nothing_installed in
  let src := UPLOAD_DIR // "p5.pdf" in
  let dst := OUTPUT_DIR // "p5_doc.png" in
  let w := one_file src "page" in
  HAS_PDFIUM env = true ∧
  PdfDocument env (fs w !! src) = inr ["page"] ∧
  ∃ ok f2 body,
    convert_pdf_with_pdfium env src dst "png" w =
      (inr ok, mkWorld f2 ([Enter "convert_pdf_with_pdfium"; PdfOpen "uploads/p5.pdf"] ++
                           body ++ [PdfClose])) ∧
    PdfClose ∉ body.
Proof.
  intros env src dst w. split; [reflexivity|]. split; [reflexivity|].
  destruct (pdfium_closes_what_it_opened env src dst "png" w)
    as (ok & f2 & evs & Hrun & _ & _ & Hopen).
  destruct (Hopen ["page"] eq_refl eq_refl) as (body & -> & Hclose & _).
  exists ok, f2, body. split; [exact Hrun|exact Hclose].
Defined.

(** X15.  The Secondary Renderer looks at the first page only: cutting every
    document down to its first page changes nothing of what it returns, of
    the file it writes, or of its events. *)
Theorem pdfium_renders_first_page_only (env : Env) (src dst : path) (target : string)
    (w : World) :
  convert_pdf_with_pdfium (first_page_only env) src dst target w =
  convert_pdf_with_pdfium env src dst target w.
Proof.
  unfold convert_pdf_with_pdfium. rewrite !bind_unfold, !emit_unfold.
  change (HAS_PDFIUM (first_page_only env)) with (HAS_PDFIUM env).
  destruct (HAS_PDFIUM env); cbn [negb]; [|done].
  rewrite !bind_unfold, !emit_unfold, !bind_unfold. cbn [read_file]. munfold.
  destruct (PdfDocument env (fs w !! src)) as [msg|[|page pages]]; [done|done|].
  reflexivity.
Qed.

(** X16.  When the call of pdftoppm returns exit code 0 the Primary
    Renderer takes the first candidate that exists, [stem.target] before
    [stem.jpeg]: its content ends up at the destination and, unless it was
    the destination already, the candidate is gone.  When the call raises
    because pdftoppm printed what is no text, no candidate is looked for: the
    renderer raises the [UnicodeDecodeError] of the call and the files stay
    as pdftoppm left them. *)
Theorem poppler_moves_first_candidate (env : Env) (src dst : path) (target : string)
    (w : World) (data : string) (f' : gmap path string) :
  let named := Path.parent dst // (Path.stem dst ++ "." ++ target) in
  let spelled := Path.parent dst // (Path.stem dst ++ ".jpeg") in
  let argv := pdftoppm_argv src dst target in
  (∀ err, run_program env argv 60 (fs w) = Completed 0 err f' →
   (f' !! named = Some data →
    ∃ w', convert_pdf_with_poppler env src dst target w = (inr true, w') ∧
          fs w' !! dst = Some data ∧ (named ≠ dst → fs w' !! named = None)) ∧
   (target = "jpg" → f' !! named = None → f' !! spelled = Some data →
    ∃ w', convert_pdf_with_poppler env src dst target w = (inr true, w') ∧
          fs w' !! dst = Some data ∧ (spelled ≠ dst → fs w' !! spelled = None))) ∧
  (∀ rc msg, run_program env argv 60 (fs w) = Undecodable rc msg f' →
   convert_pdf_with_poppler env src dst target w =
     (inl (UnicodeDecodeError msg),
      mkWorld f' (log w ++ [Enter "convert_pdf_with_poppler"; Subprocess argv]))).
Proof.
  intros named spelled argv.
  assert (∀ c rest w0,
            fs w0 !! c = Some data →
            ∃ w', take_candidate dst (c :: rest) w0 = (inr true, w') ∧
                  fs w' !! dst = Some data ∧ (c ≠ dst → fs w' !! c = None)) as Hfirst.
  { intros c rest w0 Hc. cbn [take_candidate].
    rewrite bind_unfold, path_exists_unfold.
    rewrite bool_decide_eq_true_2 by (by eexists). rewrite bind_unfold.
    case_bool_decide as Hne.
    - rewrite (path_rename_Some _ _ _ data) by exact Hc.
      eexists. split; [reflexivity|]. cbn [fs].
      rewrite lookup_insert_eq. split; [done|]. intros _.
      by rewrite lookup_insert_ne, lookup_delete_eq.
    - assert (c = dst) as -> by (destruct (decide (c = dst)); [done|by destruct Hne]).
      eexists. split; [reflexivity|]. split; [done|]. by intros []. }
  rewrite convert_pdf_with_poppler_result. subst argv. split.
  2:{ intros rc msg Hrun. by rewrite Hrun. }
  intros err Hrun. rewrite Hrun.
  rewrite bool_decide_eq_false_2 by (intros H; by apply H).
  unfold poppler_candidates. fold named. split.
  - intros Hn. by apply Hfirst.
  - intros -> Hn Hs. rewrite bool_decide_eq_true_2 by done.
    fold spelled. cbn [app take_candidate].
    rewrite bind_unfold, path_exists_unfold.
    rewrite bool_decide_eq_false_2
      by (unfold after_poppler; cbn [fs]; rewrite Hn; by intros [? ?]).
    exact (Hfirst spelled [] (after_poppler src dst "jpg" w f') Hs).
Qed.

Lemma poppler_moves_first_candidate_witness :
  let env := sample_env true true
               (sample_tool "pdftoppm" 0 "" [(OUTPUT_DIR // "p6_doc.jpg", "JFIF")]) in
  let src := UPLOAD_DIR // "p6.pdf" in
  let dst := OUTPUT_DIR // "p6_doc.jpeg" in
  let w := one_file src "page" in
  ∃ w', convert_pdf_with_poppler env src dst "jpg" w = (inr true, w') ∧
        fs w' !! dst = Some "JFIF" ∧
        fs w' !! (OUTPUT_DIR // "p6_doc.jpg") = None.
Proof.
  intros env src dst w.
  destruct (poppler_moves_first_candidate env src dst "jpg" w "JFIF"
              (<[OUTPUT_DIR // "p6_doc.jpg" := "JFIF"]> (fs w))) as (Hzero & _).
  destruct (Hzero "" eq_refl) as (Hnamed & _).
  destruct Hnamed as (w' & Hrun & Hdst & Hgone); [by vm_compute|].
  exists w'. split; [exact Hrun|]. split; [exact Hdst|].
  apply Hgone. by vm_compute.
Defined.

(** X17.  A request for the target xls is accepted for a spreadsheet and
    then fails in the adapter: with pandas installed and a source that
    parses, [convert_file] answers 500 "Conversion failed: Unsupported
    spreadsheet target: xls" and no file is written. *)
Theorem xls_request_fails_after_validation (env : Env) (req : ConvertRequest)
    (w : World) (df : dataframe) :
  is_Some (fs w !! input_path_of req) →
  detect_category (filename req) None = inr "spreadsheet" →
  normalize_ext (target_raw_of req) = "xls" →
  HAS_PANDAS env = true →
  read_source env (input_path_of req) w = inr df →
  is_valid_target "spreadsheet" (target_format req) = true ∧
  convert_file env req w =
    (inl (HTTPException 500 "Conversion failed: Unsupported spreadsheet target: xls"),
     after_read (input_path_of req) w).
Proof.
  intros E Hd Ht Hp Hr.
  assert (is_valid_target "spreadsheet" (target_format req) = true) as Hv.
  { unfold is_valid_target. fold (target_raw_of req). rewrite Ht. by vm_compute. }
  split; [exact Hv|].
  rewrite (convert_file_valid _ _ _ _ E Hd Hv), dispatch_spreadsheet, Ht.
  by rewrite (convert_spreadsheet_parsed _ _ _ _ _ df Hp Hr).
Qed.

Lemma xls_request_fails_after_validation_witness :
  let env := sample_env true true nothing_installed in
  let req := mkConvertRequest "s4" "book.xlsx" ".XLS" in
  let w := one_file (UPLOAD_DIR // "s4.xlsx") "a" in
  is_Some (fs w !! input_path_of req) ∧
  detect_category (filename req) None = inr "spreadsheet" ∧
  normalize_ext (target_raw_of req) = "xls" ∧
  HAS_PANDAS env = true ∧
  read_source env (input_path_of req) w = inr [["a"]] ∧
  (convert_file env req w).1 =
    inl (HTTPException 500 "Conversion failed: Unsupported spreadsheet target: xls").
Proof.
  intros env req w.
  assert (is_Some (fs w !! input_path_of req)) as E by (vm_compute; by eexists).
  assert (detect_category (filename req) None = inr "spreadsheet") as Hd by (by vm_compute).
  assert (normalize_ext (target_raw_of req) = "xls") as Ht by (by vm_compute).
  assert (read_source env (input_path_of req) w = inr [["a"]]) as Hr by (by vm_compute).
  split; [exact E|]. split; [exact Hd|]. split; [exact Ht|]. split; [reflexivity|].
  split; [exact Hr|].
  destruct (xls_request_fails_after_validation env req w [["a"]] E Hd Ht eq_refl Hr)
    as (_ & ->).
  reflexivity.
Defined.

(** ** Normalization and classification *)

Lemma lower_upper_char c : Str.lower_char (Str.upper_char c) = Str.lower_char c.
Proof. by destruct c as [[] [] [] [] [] [] [] []]. Qed.

Lemma lower_upper s : Str.lower (Str.upper s) = Str.lower s.
Proof. induction s as [|c s IH]; simpl; [done|]. by rewrite lower_upper_char, IH. Qed.

(** X18.  The result of [normalize_ext] is canonical: it has no leading dot,
    is lower-case and is no key of the alias table.  Normalization ignores
    the case of the letters and a leading dot of its argument. *)
Theorem normalize_ext_canonical (x : string) :
  Str.lstrip_dot (normalize_ext x) = normalize_ext x ∧
  Str.lower (normalize_ext x) = normalize_ext x ∧
  EXT_ALIASES !! normalize_ext x = None ∧
  normalize_ext (String "." x) = normalize_ext x ∧
  normalize_ext (Str.upper x) = normalize_ext x.
Proof.
  assert (normalize_ext (String "." x) = normalize_ext x) as Hdot by reflexivity.
  assert (normalize_ext (Str.upper x) = normalize_ext x) as Hup
    by (unfold normalize_ext; by rewrite lower_upper).
  assert (Str.lstrip_dot (normalize_ext x) = normalize_ext x ∧
          Str.lower (normalize_ext x) = normalize_ext x ∧
          EXT_ALIASES !! normalize_ext x = None) as (H1 & H2 & H3); [|done].
  unfold normalize_ext. fold (apply_alias (Str.lstrip_dot (Str.lower x))).
  destruct (apply_alias_cases (Str.lstrip_dot (Str.lower x)))
    as [[_ ->]|[[_ ->]|(Hj & Ht & ->)]]; [by vm_compute|by vm_compute|].
  split; [apply lstrip_dot_idem|].
  split; [by rewrite lower_lstrip_dot, lower_idem|].
  rewrite EXT_ALIASES_lookup. by repeat case_decide.
Qed.

(** X19.  [detect_category] always answers one of the seven categories of
    the catalog or "unknown"; the answer has a catalog row exactly when it is
    not "unknown"; an empty hint counts as no hint. *)
Theorem detect_category_range_total (filename : string) (mime : option string) :
  ∃ category,
    detect_category filename mime = inr category ∧
    (category ∈ catalog_categories ∨ category = "unknown") ∧
    (category ≠ "unknown" ↔ catalog_row category ≠ []) ∧
    detect_category filename (Some "") = detect_category filename None.
Proof.
  exists (classify_spec filename mime).
  pose proof (detect_category_spec filename mime) as Hd.
  split; [exact Hd|]. split; [by eapply detect_category_range|].
  split; [|rewrite !detect_category_spec; unfold classify_spec;
            destruct (EXT_TO_CATEGORY !! _); [done|by vm_compute]].
  split; [|intros Hrow Hu; apply Hrow; by rewrite Hu].
  intros Hne. destruct (detect_category_range _ _ _ Hd) as [Hc|Hu]; [|done].
  unfold catalog_categories in Hc. rewrite ?elem_of_cons, ?elem_of_nil in Hc.
  destruct Hc as [->|[->|[->|[->|[->|[->|[->|[]]]]]]]]; by vm_compute.
Qed.

(** ** The allowed origins *)

Lemma str_lstrip_idem s : str_lstrip (str_lstrip s) = str_lstrip s.
Proof.
  induction s as [|c s IH]; [done|]. simpl.
  destruct (py_isspace c) eqn:Hc; [done|]. simpl. by rewrite Hc.
Qed.

Lemma str_rstrip_cons c s :
  str_rstrip (String c s) =
    if bool_decide (str_rstrip s = "") && py_isspace c then ""
    else String c (str_rstrip s).
Proof. simpl. destruct (str_rstrip s); [by destruct (py_isspace c)|done]. Qed.

Lemma str_rstrip_idem s : str_rstrip (str_rstrip s) = str_rstrip s.
Proof.
  induction s as [|c s IH]; [done|]. rewrite str_rstrip_cons.
  destruct (bool_decide (str_rstrip s = "") && py_isspace c) eqn:Hb; [done|].
  rewrite str_rstrip_cons, IH, Hb. done.
Qed.

(** Stripping the front of a string without trailing space leaves none. *)
Lemma str_rstrip_lstrip s : str_rstrip s = s → str_rstrip (str_lstrip s) = str_lstrip s.
Proof.
  induction s as [|c s IH]; [done|]. intros Hfix. simpl.
  destruct (py_isspace c) eqn:Hc; [|exact Hfix].
  apply IH. rewrite str_rstrip_cons, Hc, andb_true_r in Hfix.
  case_bool_decide; [done|]. by injection Hfix.
Qed.

Lemma str_strip_idem s : str_strip (str_strip s) = str_strip s.
Proof.
  unfold str_strip.
  rewrite (str_rstrip_lstrip (str_rstrip s)) by apply str_rstrip_idem.
  apply str_lstrip_idem.
Qed.

Lemma has_char_lstrip c s : has_char c (str_lstrip s) = true → has_char c s = true.
Proof.
  induction s as [|a s IH]; [done|]. simpl.
  destruct (py_isspace a); [|done]. intros H. by rewrite (IH H), orb_true_r.
Qed.

Lemma has_char_rstrip c s : has_char c (str_rstrip s) = true → has_char c s = true.
Proof.
  induction s as [|a s IH]; [done|]. rewrite str_rstrip_cons.
  destruct (bool_decide (str_rstrip s = "") && py_isspace a); [done|].
  simpl. destruct (bool_decide (a = c)); [done|]. exact IH.
Qed.

Lemma has_char_split sep s o : o ∈ Str.split sep s → has_char sep o = false.
Proof.
  revert o. induction s as [|a s IH]; intros o; simpl.
  - by intros ->%list_elem_of_singleton.
  - case_decide as Ha.
    + intros [->|Hin]%elem_of_cons; [done|by apply IH].
    + destruct (Str.split sep s) as [|o1 os] eqn:Hs.
      * intros ->%list_elem_of_singleton. simpl.
        by rewrite bool_decide_eq_false_2.
      * intros [->|Hin]%elem_of_cons.
        -- simpl. rewrite bool_decide_eq_false_2 by done. apply IH. by left.
        -- apply IH. by right.
Qed.

(** The pieces of a string of commas and white space are white space. *)
Lemma split_comma_or_space raw o :
  all_chars comma_or_space raw = true → o ∈ Str.split "," raw →
  all_chars py_isspace o = true.
Proof.
  revert o. induction raw as [|a s IH]; intros o; simpl.
  - by intros _ ->%list_elem_of_singleton.
  - intros [Ha Hs]%andb_prop. specialize (λ o, IH o Hs). case_decide as Hsep.
    + intros [->|Hin]%elem_of_cons; [done|by apply IH].
    + assert (py_isspace a = true) as Hspace.
      { unfold comma_or_space in Ha. by rewrite bool_decide_eq_false_2 in Ha. }
      destruct (Str.split "," s) as [|o1 os] eqn:Hsplit.
      * intros ->%list_elem_of_singleton. simpl. by rewrite Hspace.
      * intros [->|Hin]%elem_of_cons.
        -- simpl. rewrite Hspace. apply IH. by left.
        -- apply IH. by right.
Qed.

(** Nothing is left of white space. *)
Lemma str_strip_space o : all_chars py_isspace o = true → str_strip o = "".
Proof.
  intros Ho. assert (str_rstrip o = "") as Hr; [|unfold str_strip; by rewrite Hr].
  induction o as [|c o IH]; [done|]. simpl in Ho. apply andb_prop in Ho as [Hc Ho].
  by rewrite str_rstrip_cons, (IH Ho), Hc.
Qed.

(** X20.  Every allowed origin is non-empty, has no white space at either
    end and contains no comma, whatever the value of ALLOWED_ORIGINS; when
    the variable is not set the origins are the four local ones; every value
    that is made of commas and white space only, the empty one among them,
    gives no origin at all. *)
Theorem allowed_origins_are_clean (getenv : option string) (origin : string) :
  (origin ∈ allowed_origins getenv →
   origin ≠ "" ∧ str_strip origin = origin ∧ has_char "," origin = false) ∧
  allowed_origins None =
    ["http://localhost:8000"; "http://127.0.0.1:8000";
     "http://localhost:5173"; "http://127.0.0.1:5173"] ∧
  allowed_origins (Some "") = [] ∧
  allowed_origins (Some " , ,,") = [] ∧
  (∀ raw, all_chars comma_or_space raw = true → allowed_origins (Some raw) = []).
Proof.
  split; [|split; [by vm_compute|split; [by vm_compute|split; [by vm_compute|]]]].
  - unfold allowed_origins. intros (o & -> & Ho)%list_elem_of_fmap.
    apply list_elem_of_filter in Ho as [Hne Ho].
    split; [exact Hne|]. split; [apply str_strip_idem|].
    apply not_true_is_false. intros Hc.
    apply has_char_lstrip, has_char_rstrip in Hc.
    by rewrite (has_char_split _ _ _ Ho) in Hc.
  - intros raw Hraw. unfold allowed_origins. cbn [default].
    match goal with |- _ <$> ?l = [] => assert (l = []) as ->; [|done] end.
    apply elem_of_nil_inv. intros o [Hne Ho]%list_elem_of_filter.
    apply Hne, str_strip_space. by eapply split_comma_or_space.
Qed.

Lemma allowed_origins_are_clean_witness :
  allowed_origins (Some " https://a.example ,, https://b.example") =
    ["https://a.example"; "https://b.example"] ∧
  str_strip "https://b.example" = "https://b.example" ∧
  all_chars comma_or_space (" ," ++ String "009" (String "010" ", ,,")) = true ∧
  allowed_origins (Some (" ," ++ String "009" (String "010" ", ,,"))) = [].
Proof.
  split; [by vm_compute|].
  destruct (allowed_origins_are_clean (Some " https://a.example ,, https://b.example")
              "https://b.example") as (Hclean & _ & _ & _ & Hnone).
  split; [|split; [by vm_compute|apply Hnone; by vm_compute]].
  apply Hclean. refine (bool_decide_unpack _ _). vm_compute. exact I.
Defined.

(** ** The paths of a request *)

Lemma root_of_absolute s t :
  Str.startswith s "/" = true → is_Some (Path.root_of (s ++ t)).
Proof.
  destruct s as [|c s]; [done|]. simpl. case_decide as Hc; [|done]. subst c. intros _.
  unfold Path.root_of.
  destruct (Str.startswith _ "///"); [by eexists|].
  destruct (Str.startswith _ "//"); [by eexists|].
  assert (Str.startswith (String "/" s +:+ t) "/" = true) as ->
    by (simpl; by destruct (s +:+ t)).
  by eexists.
Qed.

(** X21.  The id of a request is joined to the upload and output
    directories as it is.  An id that begins with a slash makes both paths
    absolute: the file [convert_file] reads and the file it has written are
    then outside of [uploads] and [outputs]. *)
Theorem absolute_file_id_leaves_the_directories (req : ConvertRequest) :
  Str.startswith (file_id req) "/" = true →
  input_path_of req =
    Path.parse (file_id req ++ Path.suffix (Path.parse (filename req))) ∧
  output_path_of req =
    Path.parse (file_id req ++ "_" ++ output_filename_of req) ∧
  (∃ r rest, input_path_of req = r :: rest ∧ Path.is_root r = true) ∧
  (∃ r rest, output_path_of req = r :: rest ∧ Path.is_root r = true).
Proof.
  intros Habs.
  assert (∀ t, UPLOAD_DIR // (file_id req ++ t) = Path.parse (file_id req ++ t) ∧
               OUTPUT_DIR // (file_id req ++ t) = Path.parse (file_id req ++ t) ∧
               ∃ r rest, Path.parse (file_id req ++ t) = r :: rest ∧ Path.is_root r = true)
    as Hjoin.
  { intros t. destruct (root_of_absolute _ t Habs) as [r Hr].
    unfold Path.joinpath. rewrite Hr. split; [done|]. split; [done|].
    unfold Path.parse. rewrite Hr. eexists _, _. split; [reflexivity|].
    revert Hr. unfold Path.root_of. repeat case_match; by intros [= <-]. }
  unfold input_path_of, output_path_of.
  destruct (Hjoin (Path.suffix (Path.parse (filename req)))) as (Hin & _ & Hrin).
  destruct (Hjoin ("_" ++ output_filename_of req)) as (_ & Hout & Hrout).
  rewrite Hin, Hout. by repeat split.
Qed.

Lemma absolute_file_id_leaves_the_directories_witness :
  let req := mkConvertRequest "/etc/motd" "x.txt" "pdf" in
  Str.startswith (file_id req) "/" = true ∧
  input_path_of req = ["/"; "etc"; "motd.txt"] ∧
  output_path_of req = ["/"; "etc"; "motd_x.pdf"].
Proof.
  intros req.
  assert (Str.startswith (file_id req) "/" = true) as Habs by reflexivity.
  split; [exact Habs|].
  destruct (absolute_file_id_leaves_the_directories req Habs) as (-> & -> & _).
  split; by vm_compute.
Defined.
